(** * tagifai/main.py: the run and trial lifecycle commands

    A shallow embedding of the command functions of [tagifai/main.py]
    ([optimize], [train_model], [load_artifacts], [diff],
    [behavioral_reevaluation]) over an explicit world: a local file
    system, the tracking store and the remote tag listing.  Python
    exceptions are values of [exn]; a command is a function from the world
    to a result and the world it leaves behind. *)

From Stdlib Require Import QArith Qcanon.
From stdpp Require Import gmap strings list fin_maps sorting.
Close Scope Qc_scope.
Close Scope Q_scope.
Set Warnings "-register-all".

(** ** Values *)

(** JSON scalars.  Numbers are exact rationals: the commands only store,
    copy and compare them. *)
Inductive scalar :=
| SNull
| SBool (b : bool)
| SNum (q : Qc)
| SStr (s : string).

#[global] Instance scalar_eq_dec : EqDecision scalar.
Proof. solve_decision. Defined.

(** A JSON document as the commands see it: a scalar or a mapping from
    names to documents (a Python [dict] with string keys). *)
Inductive json :=
| JLeaf (s : scalar)
| JDict (d : gmap string json).

Abbreviation dict := (gmap string json).

Definition num (q : Q) : json := JLeaf (SNum (Q2Qc q)).

(** ** Exceptions and results *)

(** A Python exception: its class name and its argument. *)
Record exn := Exn { exn_class : string; exn_arg : string }.

#[global] Instance exn_eq_dec : EqDecision exn.
Proof. solve_decision. Defined.

Inductive result (A : Type) :=
| Ok (a : A)
| Err (e : exn).
Arguments Ok {A} a.
Arguments Err {A} e.

Definition bind {A B} (r : result A) (k : A → result B) : result B :=
  match r with
  | Ok a => k a
  | Err e => Err e
  end.

#[global] Instance result_ret : MRet result := @Ok.
#[global] Instance result_bind : MBind result := λ A B k r, bind r k.

Definition is_ok {A} (r : result A) : bool :=
  match r with Ok _ => true | Err _ => false end.

Definition KeyError (k : string) : exn := Exn "KeyError" k.
Definition ValueError (m : string) : exn := Exn "ValueError" m.
Definition TypeError (m : string) : exn := Exn "TypeError" m.
Definition IndexError (m : string) : exn := Exn "IndexError" m.

(** [d[k]] on a Python dict. *)
Definition getitem {V} (d : gmap string V) (k : string) : result V :=
  match d !! k with
  | Some v => Ok v
  | None => Err (KeyError k)
  end.

(** [j[k]] where [j] is expected to be a mapping; subscripting a scalar
    with a string is a [TypeError]. *)
Definition subscript (j : json) (k : string) : result json :=
  match j with
  | JDict d => getitem d k
  | JLeaf _ => Err (TypeError "object is not subscriptable")
  end.

(** ** Data of a run *)

(** A path is [Path(directory, name)]: every file the commands touch is
    addressed that way. *)
Definition path : Type := string * string.

Record model := Model {
  vocab_size : nat;
  num_classes : nat;
  state_dict : list Z
}.

(** The five components of an artifact bundle: the mapping returned by
    [load_artifacts], and, with the loss, the one returned by
    [train.train]. *)
Record bundle := Bundle {
  b_params : dict;
  b_label_encoder : list string;
  b_tokenizer : list string;
  b_model : model;
  b_performance : dict
}.

(** The readers and writers of [tagifai.utils], [tagifai.data] and
    [torch], and the model constructor of [tagifai.models], none of which
    is part of this file: they are taken as a parameter.  [blob] is what a
    file holds.  A reader is given the file name and what is stored there
    ([None]: no such file) and returns the value or raises. *)
Record codecs (blob : Type) := Codecs {
  save_dict : dict → blob;
  load_dict : string → option blob → result dict;
  save_label_encoder : list string → blob;
  load_label_encoder : string → option blob → result (list string);
  save_tokenizer : list string → blob;
  load_tokenizer : string → option blob → result (list string);
  torch_save : list Z → blob;
  torch_load : string → option blob → result (list Z);
  initial_weights : dict → nat → nat → list Z
}.
Arguments save_dict {blob} _ _.
Arguments load_dict {blob} _ _ _.
Arguments save_label_encoder {blob} _ _.
Arguments load_label_encoder {blob} _ _ _.
Arguments save_tokenizer {blob} _ _.
Arguments load_tokenizer {blob} _ _ _.
Arguments torch_save {blob} _ _.
Arguments torch_load {blob} _ _ _.
Arguments initial_weights {blob} _ _ _ _.

(** A run of the tracking store. *)
Record run := Run {
  artifact_uri : string;
  run_name_of : string;
  experiment_of : string;
  status : string;
  metrics : gmap string json;
  logged_params : dict;
  tags : gmap string string
}.

(** A line of the logger: the message and the values formatted into it. *)
Record log_entry := Info { msg : string; args : list json }.

(** ** The search engine: trials, the study and its best trial *)

Inductive trial_state := RUNNING | COMPLETE | PRUNED | FAIL.

#[global] Instance trial_state_eq_dec : EqDecision trial_state.
Proof. solve_decision. Defined.

(** A finished trial as the study keeps it.  [intermediate_values] holds
    the values reported at steps 0, 1, 2, ... *)
Record frozen_trial := FrozenTrial {
  number : nat;
  state : trial_state;
  value : option Qc;
  params : dict;
  user_attrs : dict;
  intermediate_values : list Qc
}.

(** What [train.objective(params, trial)] does on one trial, seen from the
    study: the hyperparameters it asks the trial for, the values it reports
    step by step, and how it ends when it is not stopped: it returns a score
    after attaching user attributes, or it raises. *)
Record script := Script {
  suggested : dict;
  reports : list Qc;
  ending : result (Qc * dict)
}.

(** [pruner = optuna.pruners.MedianPruner(n_startup_trials=5,
    n_warmup_steps=5)] *)
Definition n_startup_trials : nat := 5.
Definition n_warmup_steps : nat := 5.

(** The values the other trials reported at step [step]. *)
Definition values_at_step (others : list frozen_trial) (step : nat) : list Qc :=
  omap (λ t, intermediate_values t !! step) others.

(** Median of a list of values: the middle of the sorted list, the mean
    of the two middle values when the length is even. *)
Definition median (l : list Qc) : option Qc :=
  let s := merge_sort Qcle l in
  let n := length s in
  if Nat.even n then
    match s !! (n / 2 - 1), s !! (n / 2) with
    | Some a, Some b => Some ((a + b) / (1 + 1))%Qc
    | _, _ => None
    end
  else s !! (n / 2).

(** Modelled from the spec: the median-pruning policy of the search
    engine, whose code is not part of this file.  A trial is eligible only
    after [n_startup_trials] trials came before it and at a step past the
    [n_warmup_steps] warm-up steps; it is pruned when the value it reports
    is strictly worse (the study maximizes) than the median of the other
    trials' values at the same step. *)
Definition eligible (others : list frozen_trial) (step : nat) : bool :=
  bool_decide (n_startup_trials ≤ length others)
  && bool_decide (n_warmup_steps ≤ step).

Definition should_prune (others : list frozen_trial) (step : nat) (v : Qc) : bool :=
  eligible others step
  && match median (values_at_step others step) with
     | Some m => bool_decide (v < m)%Qc
     | None => false
     end.

(** Modelled from the spec: the report loop of the objective.  At each
    intermediate report the pruner is asked; a pruned trial stops there.
    [seen] are the values reported so far. *)
Fixpoint report_loop (others : list frozen_trial) (seen : list Qc)
    (todo : list Qc) : list Qc * bool :=
  match todo with
  | [] => (seen, false)
  | v :: todo' =>
      if should_prune others (length seen) v then (seen ++ [v], true)
      else report_loop others (seen ++ [v]) todo'
  end.

(** One trial of [study.optimize]: the frozen trial it leaves in the study
    and the exception that escapes, if any. *)
Definition run_trial (others : list frozen_trial) (sc : script)
    : frozen_trial * option exn :=
  let n := length others in
  let '(seen, pruned) := report_loop others [] (reports sc) in
  if pruned then
    (FrozenTrial n PRUNED (last seen) (suggested sc) ∅ seen, None)
  else
    match ending sc with
    | Ok (v, attrs) =>
        (FrozenTrial n COMPLETE (Some v) (suggested sc) attrs seen, None)
    | Err e =>
        (FrozenTrial n FAIL None (suggested sc) ∅ seen, Some e)
    end.

(** [study.optimize(objective, n_trials=num_trials)] is called without a
    [catch] argument: the trials run one after the other, and an exception
    of the objective (other than the pruning signal) is recorded as a
    failed trial and raised again, which ends the loop. *)
Fixpoint study_optimize (objective : nat → script) (n_trials : nat)
    (study : list frozen_trial) : list frozen_trial * option exn :=
  match n_trials with
  | O => (study, None)
  | S k =>
      let '(t, err) := run_trial study (objective (length study)) in
      match err with
      | Some e => (study ++ [t], Some e)
      | None => study_optimize objective k (study ++ [t])
      end
  end.

(** [study.best_trial] for [direction="maximize"]: the study keeps the
    first completed trial as its best and replaces it only by a completed
    trial with a strictly greater value. *)
Definition improves (best : option frozen_trial) (t : frozen_trial) : bool :=
  match state t, value t with
  | COMPLETE, Some v =>
      match best with
      | None => true
      | Some b =>
          match value b with
          | Some vb => bool_decide (vb < v)%Qc
          | None => true
          end
      end
  | _, _ => false
  end.

Definition update_best (best : option frozen_trial) (t : frozen_trial)
    : option frozen_trial :=
  if improves best t then Some t else best.

Definition best_trial (study : list frozen_trial) : result frozen_trial :=
  match foldl update_best None study with
  | Some t => Ok t
  | None => Err (ValueError "No trials are completed yet.")
  end.

(** [study.trials_dataframe()] followed by
    [trials_df.sort_values(["value"], ascending=False)]: the trials by
    decreasing value, those without a value last.  The frame of a study
    without trials has no column [value], which the sort asks for. *)
Definition ranks_before (a b : frozen_trial) : Prop :=
  match value a, value b with
  | Some x, Some y => (y ≤ x)%Qc
  | Some _, None => True
  | None, Some _ => False
  | None, None => True
  end.

#[global] Instance ranks_before_dec : RelDecision ranks_before.
Proof.
  intros a b. unfold ranks_before. destruct (value a), (value b); apply _.
Defined.

Definition sorted_trials (study : list frozen_trial) : result (list frozen_trial) :=
  match study with
  | [] => Err (KeyError "value")
  | _ => Ok (merge_sort ranks_before study)
  end.


(** ** Strings and keyword calls *)

(** [s.split(sep)] for a non-empty separator: the pieces between the
    occurrences of [sep], found from left to right.  [skip] counts the
    characters of an occurrence still to pass over, [piece] is the piece
    read so far. *)
Fixpoint split_from (sep : string) (skip : nat) (piece : string) (s : string)
    : list string :=
  match s with
  | EmptyString => [piece]
  | String c s' =>
      match skip with
      | S k => split_from sep k piece s'
      | O =>
          if String.prefix sep s
          then piece :: split_from sep (String.length sep - 1) "" s'
          else split_from sep 0 (piece +:+ String c "") s'
      end
  end.

Definition py_split (s sep : string) : list string := split_from sep 0 "" s.

(** [l[-1]] on the result of a split, which is never empty. *)
Definition last_piece (l : list string) : string := default "" (last l).

(** The directory the tracking store keeps the artifacts of a local run
    in: the artifact URI without its [file://] scheme. *)
Definition local_path (uri : string) : string :=
  if String.prefix "file://" uri then String.substring 7 (String.length uri - 7) uri
  else uri.

(** Calling a Python function with keyword arguments only: every keyword
    has to name a parameter and every parameter without a default has to
    be given.  [sig] lists the parameters with whether they have a
    default. *)
Definition bind_keywords (fname : string) (sig : list (string * bool))
    (kwargs : list string) : result unit :=
  match filter (λ k, k ∉ sig.*1) kwargs with
  | k :: _ =>
      Err (TypeError (fname +:+ "() got an unexpected keyword argument '" +:+ k +:+ "'"))
  | [] =>
      match filter (λ p, p.2 = false ∧ p.1 ∉ kwargs) sig with
      | p :: _ =>
          Err (TypeError (fname +:+ "() missing 1 required positional argument: '" +:+ p.1 +:+ "'"))
      | [] => Ok ()
      end
  end.

(** ** The structural diff of two mappings *)

Record DiffResult := MkDiff {
  added : dict;
  removed : dict;
  changed : dict
}.

(** A nested result is kept only when it is not empty. *)
Definition nested (sub : dict) : option json :=
  if decide (dom sub = ∅) then None else Some (JDict sub).

(** Modelled from the spec: [utils.dict_diff], which is not part of this
    file.  The three mappings of a DiffResult are computed over the union
    of the keys of the two sides, recursively for nested mappings:
    [added] holds what is present only in side B, [removed] what is
    present only in side A, [changed] the leaves present in both with
    different values, each with the two values under the labels of the
    sides.  Values are compared by exact equality. *)
Fixpoint diff_added (a b : json) : dict :=
  match a, b with
  | JDict da, JDict db =>
      merge (λ oa ob,
        match oa, ob with
        | None, Some y => Some y
        | Some x, Some y => nested (diff_added x y)
        | _, _ => None
        end) da db
  | _, _ => ∅
  end.

Fixpoint diff_removed (a b : json) : dict :=
  match a, b with
  | JDict da, JDict db =>
      merge (λ oa ob,
        match oa, ob with
        | Some x, None => Some x
        | Some x, Some y => nested (diff_removed x y)
        | _, _ => None
        end) da db
  | _, _ => ∅
  end.

Definition both (a_name b_name : string) (x y : json) : json :=
  JDict (<[b_name := y]> {[a_name := x]}).

Fixpoint diff_changed (a_name b_name : string) (a b : json) : dict :=
  match a, b with
  | JDict da, JDict db =>
      merge (λ oa ob,
        match oa, ob with
        | Some x, Some y =>
            match x, y with
            | JDict _, JDict _ => nested (diff_changed a_name b_name x y)
            | JLeaf s, JLeaf t =>
                if decide (s = t) then None else Some (both a_name b_name x y)
            | _, _ => Some (both a_name b_name x y)
            end
        | _, _ => None
        end) da db
  | _, _ => ∅
  end.

Definition dict_diff (d_a d_b : dict) (d_a_name d_b_name : string) : DiffResult :=
  MkDiff (diff_added (JDict d_a) (JDict d_b))
         (diff_removed (JDict d_a) (JDict d_b))
         (diff_changed d_a_name d_b_name (JDict d_a) (JDict d_b)).

Definition diff_to_json (r : DiffResult) : json :=
  JDict (<["added" := JDict (added r)]>
        (<["removed" := JDict (removed r)]>
        {["changed" := JDict (changed r)]})).

(** ** The world and the commands *)

Definition FileNotFoundError (p : path) : exn :=
  Exn "FileNotFoundError" (p.1 +:+ "/" +:+ p.2).
Definition OSError (p : path) : exn :=
  Exn "OSError" (p.1 +:+ "/" +:+ p.2).
Definition FileExistsError (d : string) : exn := Exn "FileExistsError" d.
Definition RunNotFoundError (run_id : string) : exn :=
  Exn "RunNotFoundError" run_id.

(** What the environment picks during a command: the identifier and the
    artifact location the tracking store gives a new run, and the name of
    a new temporary directory. *)
Record choices := Choices {
  new_run_id : string;
  new_artifact_uri : string;
  new_tmp_dir : string
}.

Section commands.
Context {blob : Type} (C : codecs blob).

(** [train.train], [eval.get_behavioral_report] and
    [utils.load_json_from_url] are not part of this file either. *)
Context (train_train : dict → result (bundle * Qc)).
Context (get_behavioral_report : bundle → result json).
Context (load_json_from_url : string → result (list json)).

(** The file system is directory ↦ (file name ↦ content); [faulty] are
    the paths at which a write fails (a full or broken disk). *)
Record world := World {
  dirs : gmap string (gmap string blob);
  faulty : gset path;
  tracking : gmap string run;
  active_run : option string;
  experiment : string;
  logged : list log_entry;
  trial_metrics : list (string * nat * option Qc)
}.

Definition set_dirs (f : gmap string (gmap string blob) → gmap string (gmap string blob))
    (w : world) : world :=
  World (f (dirs w)) (faulty w) (tracking w) (active_run w) (experiment w)
        (logged w) (trial_metrics w).
Definition set_tracking (f : gmap string run → gmap string run) (w : world) : world :=
  World (dirs w) (faulty w) (f (tracking w)) (active_run w) (experiment w)
        (logged w) (trial_metrics w).
Definition set_active_run (a : option string) (w : world) : world :=
  World (dirs w) (faulty w) (tracking w) a (experiment w)
        (logged w) (trial_metrics w).
Definition set_experiment_name (e : string) (w : world) : world :=
  World (dirs w) (faulty w) (tracking w) (active_run w) e
        (logged w) (trial_metrics w).
Definition add_logged (l : log_entry) (w : world) : world :=
  World (dirs w) (faulty w) (tracking w) (active_run w) (experiment w)
        (logged w ++ [l]) (trial_metrics w).
Definition add_trial_metrics (l : list (string * nat * option Qc)) (w : world) : world :=
  World (dirs w) (faulty w) (tracking w) (active_run w) (experiment w)
        (logged w) (trial_metrics w ++ l).

(** A command step: it reads and changes the world and returns a value
    or raises; the world it leaves is kept in both cases. *)
Definition M (A : Type) : Type := world → result A * world.


#[global] Instance M_ret : MRet M := λ A a w, (Ok a, w).
#[global] Instance M_bind : MBind M := λ A B k m w,
  match m w with
  | (Ok a, w') => k a w'
  | (Err e, w') => (Err e, w')
  end.

Definition lift {A} (r : result A) : M A := λ w, (r, w).
Definition reading {A} (f : world → result A) : M A := λ w, (f w, w).
Definition update (f : world → world) : M unit := λ w, (Ok (), f w).

(** [with ...: body]: [leave] runs when the block is left, normally or
    by an exception, and is told which. *)
Definition with_block {A} (body : M A) (leave : bool → world → world) : M A :=
  λ w, match body w with (r, w') => (r, leave (is_ok r) w') end.

Definition logger_info (m : string) (vals : list json) : M unit :=
  update (add_logged (Info m vals)).

(** *** Files *)

Definition read_file (w : world) (p : path) : option blob :=
  dirs w !! p.1 ≫= (.!! p.2).

(** Writing [b] at [p]; the directory has to exist. *)
Definition write_file (p : path) (b : blob) : M unit := λ w,
  if decide (p ∈ faulty w) then (Err (OSError p), w)
  else
    match dirs w !! p.1 with
    | Some files => (Ok (), set_dirs <[p.1 := <[p.2 := b]> files]> w)
    | None => (Err (FileNotFoundError p), w)
    end.

(** [utils.load_dict(filepath)] and [utils.save_dict(d, filepath)]. *)
Definition utils_load_dict (p : path) (w : world) : result dict :=
  load_dict C p.2 (read_file w p).

Definition utils_save_dict (x : dict) (p : path) : M unit :=
  write_file p (save_dict C x).

(** [with tempfile.TemporaryDirectory() as dp]: a new, empty directory,
    removed with all it holds when the block is left. *)
Definition temporary_directory {A} (dp : string) (body : M A) : M A := λ w,
  match dirs w !! dp with
  | Some _ => (Err (FileExistsError dp), w)
  | None =>
      with_block body (λ _, set_dirs (delete dp)) (set_dirs <[dp := ∅]> w)
  end.

(** *** The tracking store *)

(** [mlflow.get_run(run_id)].  Modelled from the spec: an identifier
    the store does not know is a [RunNotFoundError]. *)
Definition get_run (run_id : string) (w : world) : result run :=
  match tracking w !! run_id with
  | Some r => Ok r
  | None => Err (RunNotFoundError run_id)
  end.

Definition set_status (s : string) (r : run) : run :=
  Run (artifact_uri r) (run_name_of r) (experiment_of r) s
      (metrics r) (logged_params r) (tags r).
Definition add_metrics (m : gmap string json) (r : run) : run :=
  Run (artifact_uri r) (run_name_of r) (experiment_of r) (status r)
      (m ∪ metrics r) (logged_params r) (tags r).
Definition add_params (p : dict) (r : run) : run :=
  Run (artifact_uri r) (run_name_of r) (experiment_of r) (status r)
      (metrics r) (p ∪ logged_params r) (tags r).
Definition add_tags (t : gmap string string) (r : run) : run :=
  Run (artifact_uri r) (run_name_of r) (experiment_of r) (status r)
      (metrics r) (logged_params r) (t ∪ tags r).

(** [mlflow.start_run(run_name)]: the store creates the run, with its
    identifier, its artifact location and the directory for it, and makes
    it the active one. *)
Definition make_dir (d : string) (ds : gmap string (gmap string blob))
    : gmap string (gmap string blob) :=
  match ds !! d with
  | Some _ => ds
  | None => <[d := ∅]> ds
  end.

Definition start_run (ch : choices) (run_name : string) : M unit := λ w,
  let r := Run (new_artifact_uri ch) run_name (experiment w) "RUNNING" ∅ ∅ ∅ in
  (Ok (), set_active_run (Some (new_run_id ch))
            (set_tracking <[new_run_id ch := r]>
               (set_dirs (make_dir (local_path (new_artifact_uri ch))) w))).

Definition end_run (ok : bool) (w : world) : world :=
  match active_run w with
  | Some id =>
      set_active_run None
        (set_tracking (alter (set_status (if ok then "FINISHED" else "FAILED")) id) w)
  | None => w
  end.

Definition with_run {A} (ch : choices) (run_name : string) (body : M A) : M A :=
  start_run ch run_name ;; with_block body end_run.

(** The logging calls act on the active run and start one when there is
    none. *)
Definition ensure_run (ch : choices) : M string := λ w,
  match active_run w with
  | Some id => (Ok id, w)
  | None => (start_run ch "" ;; mret (new_run_id ch)) w
  end.

Definition on_active_run (ch : choices) (f : run → run) : M unit :=
  id ← ensure_run ch;
  update (set_tracking (alter f id)).

Definition log_metrics ch (m : gmap string json) : M unit := on_active_run ch (add_metrics m).
Definition log_params ch (p : dict) : M unit := on_active_run ch (add_params p).
Definition set_tags ch (t : gmap string string) : M unit := on_active_run ch (add_tags t).

(** [mlflow.log_artifacts(dp)]: the store takes every file of the local
    directory [dp] into the artifact location of the active run, in one
    step. *)
Definition copy_into (dp dest : string) (w : world) : world :=
  set_dirs <[dest := default ∅ (dirs w !! dp) ∪ default ∅ (dirs w !! dest)]> w.

Definition log_artifacts ch (dp : string) : M unit :=
  id ← ensure_run ch;
  r ← reading (get_run id);
  update (copy_into dp (local_path (artifact_uri r))).

(** *** [optimize] *)

(** [{**params.__dict__, **study.best_trial.params}] followed by
    [params["threshold"] = study.best_trial.user_attrs["threshold"]]. *)
Definition merge_best (base : dict) (best : frozen_trial) : result dict :=
  threshold ← getitem (user_attrs best) "threshold";
  mret (<["threshold" := threshold]> (params best ∪ base)).

(** The callback handed to [study.optimize]: every trial that ends
    without an escaping exception is logged under the metric name [f1].
    The callback writes to the same tracking store as [train_model]; the
    runs it starts there, one for each such trial, are kept as the list
    [trial_metrics], apart from the runs of [tracking]. *)
Definition mlflow_callback (study_name : string) (study : list frozen_trial)
    : list (string * nat * option Qc) :=
  (λ t, (study_name, number t, value t)) <$> filter (λ t, state t ≠ FAIL) study.

(** [study.optimize] on the world: the trials are run, the callback
    logs them, and the exception of a failing trial escapes. *)
Definition run_study (objective : nat → script) (study_name : string)
    (num_trials : nat) : M (list frozen_trial) := λ w,
  let '(study, err) := study_optimize objective num_trials [] in
  let w' := add_trial_metrics (mlflow_callback study_name study) w in
  match err with
  | Some e => (Err e, w')
  | None => (Ok study, w')
  end.

(** [optimize(params_fp, study_name, num_trials)]; the value returned
    here is the parameter mapping written back to [params_fp].  The
    sorted data frame of all trials is computed and not used. *)
Definition optimize (objective : nat → script) (params_fp : path)
    (study_name : string) (num_trials : nat) : M dict :=
  base ← reading (utils_load_dict params_fp);
  study ← run_study objective study_name num_trials;
  trials_df ← lift (sorted_trials study);
  best ← lift (best_trial study);
  logger_info "Best value (f1): {}" [from_option (JLeaf ∘ SNum) (JLeaf SNull) (value best)];;
  merged ← lift (merge_best base best);
  utils_save_dict merged params_fp;;
  logger_info "{}" [JDict merged];;
  mret merged.

(** *** [train_model] *)

Definition str (s : string) : json := JLeaf (SStr s).

(** The [metrics] mapping of [train_model], its entries looked up in
    the order the dictionary display evaluates them. *)
Definition run_metrics (performance : dict) (loss : Qc) : result (gmap string json) :=
  overall ← getitem performance "overall";
  precision ← subscript overall "precision";
  recall ← subscript overall "recall";
  f1 ← subscript overall "f1";
  behavioral ← getitem performance "behavioral";
  score ← subscript behavioral "score";
  slices ← getitem performance "slices";
  slices_overall ← subscript slices "overall";
  slices_f1 ← subscript slices_overall "f1";
  mret (<["precision" := precision]>
       (<["recall" := recall]>
       (<["f1" := f1]>
       (<["best_val_loss" := JLeaf (SNum loss)]>
       (<["behavioral_score" := score]>
       {["slices_f1" := slices_f1]}))))).

(** The names of the five component files, in the order they are
    written. *)
Definition component_files : list string :=
  ["params.json"; "performance.json"; "label_encoder.json"; "tokenizer.json";
   "model.pt"].

(** The five writes into the temporary directory [dp]. *)
Definition stage_bundle (artifacts : bundle) (dp : string) : M unit :=
  utils_save_dict (b_params artifacts) (dp, "params.json");;
  utils_save_dict (b_performance artifacts) (dp, "performance.json");;
  write_file (dp, "label_encoder.json") (save_label_encoder C (b_label_encoder artifacts));;
  write_file (dp, "tokenizer.json") (save_tokenizer C (b_tokenizer artifacts));;
  write_file (dp, "model.pt") (torch_save C (state_dict (b_model artifacts))).

(** The body of [with mlflow.start_run(run_name=run_name)]. *)
Definition train_run (ch : choices) (params : dict) : M unit :=
  run_id ← ensure_run ch;
  logger_info "Run ID: {}" [str run_id];;
  trained ← lift (train_train params);
  let artifacts := trained.1 in
  set_tags ch ∅;;
  let performance := b_performance artifacts in
  overall ← lift (getitem performance "overall");
  logger_info "{}" [overall];;
  metrics ← lift (run_metrics performance trained.2);
  log_metrics ch metrics;;
  temporary_directory (new_tmp_dir ch)
    (stage_bundle artifacts (new_tmp_dir ch);; log_artifacts ch (new_tmp_dir ch));;
  log_params ch (b_params artifacts).

Definition train_model (ch : choices) (params_fp : path)
    (experiment_name run_name : string) : M unit :=
  params ← reading (utils_load_dict params_fp);
  update (set_experiment_name experiment_name);;
  with_run ch run_name (train_run ch params).

(** *** [load_artifacts] *)

(** The reads of [load_artifacts] once the directory is known, and the
    model built from them.  [models.initialize_model] and
    [model.load_state_dict] are taken to succeed: what is said of a failing
    [load_artifacts] covers the run lookup and the five reads only. *)
Definition read_bundle (artifact_uri : string) (w : world) : result bundle :=
  params ← utils_load_dict (artifact_uri, "params.json") w;
  label_encoder ←
    load_label_encoder C "label_encoder.json"
      (read_file w (artifact_uri, "label_encoder.json"));
  tokenizer ←
    load_tokenizer C "tokenizer.json" (read_file w (artifact_uri, "tokenizer.json"));
  model_state ← torch_load C "model.pt" (read_file w (artifact_uri, "model.pt"));
  performance ← utils_load_dict (artifact_uri, "performance.json") w;
  let vocab := length tokenizer in
  let classes := length label_encoder in
  let model := Model vocab classes (initial_weights C params vocab classes) in
  let model := Model (vocab_size model) (num_classes model) model_state in
  mret (Bundle params label_encoder tokenizer model performance).

Definition load_artifacts_from (run_id : string) (w : world) : result bundle :=
  r ← get_run run_id w;
  read_bundle (last_piece (py_split (artifact_uri r) "file://")) w.

Definition load_artifacts (run_id : string) : M bundle :=
  reading (load_artifacts_from run_id).

(** A call [load_artifacts(k1=v1, ...)] with keyword arguments, against
    the signature [load_artifacts(run_id, device=...)]. *)
Definition keyword (kwargs : list (string * json)) (k : string) : result json :=
  match list_find (λ kv, kv.1 = k) kwargs with
  | Some (_, kv) => Ok kv.2
  | None => Err (TypeError ("missing argument '" +:+ k +:+ "'"))
  end.

Definition as_run_id (j : json) : string :=
  match j with
  | JLeaf (SStr s) => s
  | _ => ""
  end.

Definition call_load_artifacts (kwargs : list (string * json)) : M bundle :=
  lift (bind_keywords "load_artifacts" [("run_id", false); ("device", true)] kwargs.*1);;
  run_id ← lift (keyword kwargs "run_id");
  load_artifacts (as_run_id run_id).

(** *** [params] and [performance] *)

Definition params_command (run_id : string) : M dict :=
  artifacts ← load_artifacts run_id;
  logger_info "{}" [JDict (b_params artifacts)];;
  mret (b_params artifacts).

Definition performance_command (run_id : string) : M dict :=
  artifacts ← load_artifacts run_id;
  logger_info "{}" [JDict (b_performance artifacts)];;
  mret (b_performance artifacts).

(** The two commands are declared with the single parameter [run_id]. *)
Definition call_params (kwargs : list (string * json)) : M dict :=
  lift (bind_keywords "params" [("run_id", false)] kwargs.*1);;
  run_id ← lift (keyword kwargs "run_id");
  params_command (as_run_id run_id).

Definition call_performance (kwargs : list (string * json)) : M dict :=
  lift (bind_keywords "performance" [("run_id", false)] kwargs.*1);;
  run_id ← lift (keyword kwargs "run_id");
  performance_command (as_run_id run_id).

(** *** [diff] *)

Definition tags_url (author repo : string) : string :=
  "https://api.github.com/repos/" +:+ author +:+ "/" +:+ repo +:+ "/tags".

(** [utils.load_json_from_url(url=tags_url)[0]["name"]] *)
Definition latest_tag (author repo : string) : result json :=
  listing ← load_json_from_url (tags_url author repo);
  first ← match listing !! 0%nat with
          | Some t => Ok t
          | None => Err (IndexError "list index out of range")
          end;
  subscript first "name".

(** The first statement of [diff]: the tag that side B stands for. *)
Definition resolve_tag_b (author repo tag_b : string) : result json :=
  if decide (tag_b = "") then latest_tag author repo else Ok (str tag_b).

(** The label [dict_diff] is given for a side. *)
Definition label (tag : json) : string := as_run_id tag.

Definition diff (author repo tag_a tag_b : string) : M (DiffResult * DiffResult) :=
  tag_b ← lift (resolve_tag_b author repo tag_b);
  logger_info "Comparing {} with {}:" [str tag_a; tag_b];;
  let side tag := [("author", str author); ("repo", str repo); ("tag", tag);
                   ("verbose", JLeaf (SBool false))] in
  params_a ← call_params (side (str tag_a));
  params_b ← call_params (side tag_b);
  let params_diff := dict_diff params_a params_b tag_a (label tag_b) in
  logger_info "Parameter differences: {}" [diff_to_json params_diff];;
  performance_a ← call_performance (side (str tag_a));
  performance_b ← call_performance (side tag_b);
  let performance_diff := dict_diff performance_a performance_b tag_a (label tag_b) in
  logger_info "Performance differences: {}" [diff_to_json performance_diff];;
  mret (params_diff, performance_diff).

(** *** [behavioral_reevaluation] *)

Definition behavioral_reevaluation (ch : choices) (model_dir : string) : M unit :=
  artifacts ← call_load_artifacts [("model_dir", str model_dir)];
  report ← lift (get_behavioral_report artifacts);
  let performance := <["behavioral" := report]> (b_performance artifacts) in
  score ← lift (subscript report "score");
  log_metrics ch {["behavioral_score" := score]};;
  utils_save_dict performance (model_dir, "performance.json").
End commands.

(** ** Specification predicates *)

(** [b] is the completed trial of [study] with the greatest value, the
    earliest one among equals. *)
Definition is_best (study : list frozen_trial) (b : frozen_trial) : Prop :=
  ∃ i v,
    study !! i = Some b ∧ state b = COMPLETE ∧ value b = Some v ∧
    ∀ j t u, study !! j = Some t → state t = COMPLETE → value t = Some u →
      (u ≤ v)%Qc ∧ (u = v → i ≤ j).

Definition no_completed (study : list frozen_trial) : Prop :=
  ∀ j t u, study !! j = Some t → state t = COMPLETE → value t = Some u → False.

Definition numbered (study : list frozen_trial) : Prop :=
  ∀ i t, study !! i = Some t → number t = i.

Definition none_failed (study : list frozen_trial) : Prop :=
  Forall (λ t, state t ≠ FAIL) study.

(** The files of a published bundle. *)
Definition staged_files {blob} (C : codecs blob) (b : bundle) : gmap string blob :=
  <["model.pt" := torch_save C (state_dict (b_model b))]>
  (<["tokenizer.json" := save_tokenizer C (b_tokenizer b)]>
  (<["label_encoder.json" := save_label_encoder C (b_label_encoder b)]>
  (<["performance.json" := save_dict C (b_performance b)]>
  (<["params.json" := save_dict C (b_params b)]> ∅)))).

(** The readers invert the writers. *)
Definition codecs_inverse {blob} (C : codecs blob) : Prop :=
  (∀ n d, load_dict C n (Some (save_dict C d)) = Ok d) ∧
  (∀ n l, load_label_encoder C n (Some (save_label_encoder C l)) = Ok l) ∧
  (∀ n l, load_tokenizer C n (Some (save_tokenizer C l)) = Ok l) ∧
  (∀ n s, torch_load C n (Some (torch_save C s)) = Ok s).

(** ** A concrete file format and a sample session *)

Definition ArtifactCorruptionError (component : string) : exn :=
  Exn "ArtifactCorruptionError" component.
Definition ParseError (file : string) : exn := Exn "ParseError" file.

(** Files that hold a value of one of the four kinds of component, or
    text that is none of them. *)
Inductive file :=
| FJson (d : dict)
| FLabelEncoder (classes : list string)
| FTokenizer (tokens : list string)
| FWeights (state : list Z)
| FText (s : string).

Definition malformed (name : string) : exn :=
  if decide (name = "params.json") then ParseError name
  else ArtifactCorruptionError name.



Definition typed_files : codecs file :=
  Codecs file
    FJson
    (λ n o, match o with
            | None => Err (ArtifactCorruptionError n)
            | Some (FJson d) => Ok d
            | Some _ => Err (malformed n)
            end)
    FLabelEncoder
    (λ n o, match o with
            | None => Err (ArtifactCorruptionError n)
            | Some (FLabelEncoder l) => Ok l
            | Some _ => Err (malformed n)
            end)
    FTokenizer
    (λ n o, match o with
            | None => Err (ArtifactCorruptionError n)
            | Some (FTokenizer l) => Ok l
            | Some _ => Err (malformed n)
            end)
    FWeights
    (λ n o, match o with
            | None => Err (ArtifactCorruptionError n)
            | Some (FWeights l) => Ok l
            | Some _ => Err (malformed n)
            end)
    (λ _ v c, replicate (v * c) 0%Z).

Definition sample_params_fp : path := ("config", "params.json").

Definition sample_base : dict :=
  <["lr" := num (1 # 10)]> {["num_epochs" := num 10]}.

Definition sample_world : @world file :=
  World (<["config" := {["params.json" := FJson sample_base]}]> ∅) ∅ ∅ None ""
        [] [].

(** Three trials with the final values 0.5, 0.9 and 0.3, none of which
    reports intermediate values. *)
Definition sample_objective (n : nat) : script :=
  match n with
  | 0 => Script {["lr" := num (2 # 10)]} [] (Ok (Q2Qc (5 # 10), {["threshold" := num (4 # 10)]}))
  | 1 => Script {["lr" := num (3 # 10)]} [] (Ok (Q2Qc (9 # 10), {["threshold" := num (6 # 10)]}))
  | _ => Script {["lr" := num (5 # 10)]} [] (Ok (Q2Qc (3 # 10), {["threshold" := num (7 # 10)]}))
  end.


(** Five completed trials that all reported the value 0.5 at each of the
    steps 0 to 6, and a sixth trial that reports 0.4 from step 0 on. *)
Definition steady_trial (n : nat) : frozen_trial :=
  FrozenTrial n COMPLETE (Some (Q2Qc (5 # 10))) ∅ ∅ (replicate 7 (Q2Qc (5 # 10))).

Definition steady_study : list frozen_trial := steady_trial <$> seq 0 5.

Definition lagging_script : script :=
  Script ∅ (replicate 7 (Q2Qc (4 # 10))) (Ok (Q2Qc (4 # 10), ∅)).

(** The remote tag listing of the sample repository. *)
Definition sample_listing (url : string) : result (list json) :=
  Ok [JDict {["name" := JLeaf (SStr "v0.2")]}; JDict {["name" := JLeaf (SStr "v0.1")]}].

(** Nesting depth of a document. *)
Fixpoint depth (j : json) : nat :=
  match j with
  | JDict d => S (map_fold (λ _ v acc, max (depth v) acc) 0 d)
  | JLeaf _ => 0
  end.

(** The run [id] is the active one and keeps its artifact location. *)
Definition run_kept {blob} (id uri : string) (w : @world blob) : Prop :=
  active_run w = Some id ∧
  ∃ r, tracking w !! id = Some r ∧ artifact_uri r = uri.

(** A step that touches neither the files nor the place of the active
    run. *)
Definition calm {blob} (id uri : string) (w w' : @world blob) : Prop :=
  dirs w' = dirs w ∧ faulty w' = faulty w ∧ run_kept id uri w'.

(** The updates of a run that keep its artifact location. *)
Definition keeps_uri (f : run → run) : Prop :=
  ∀ r, artifact_uri (f r) = artifact_uri r.

(** A sample training run. *)
Definition sample_performance : dict :=
  <["overall" := JDict (<["precision" := num (8 # 10)]>
                       (<["recall" := num (7 # 10)]>
                       {["f1" := num (75 # 100)]}))]>
  (<["behavioral" := JDict {["score" := num 1]}]>
  {["slices" := JDict {["overall" := JDict {["f1" := num (6 # 10)]}]}]}).

Definition sample_bundle : bundle :=
  Bundle sample_base ["cv"; "nlp"] ["<PAD>"; "a"; "b"]
         (Model 3 2 [1; 2; 3; 4; 5; 6]%Z) sample_performance.

Definition sample_train (params : dict) : result (bundle * Qc) :=
  Ok (sample_bundle, Q2Qc (1 # 4)).

Definition sample_choices : choices :=
  Choices "run1" "file:///mlruns/0/run1/artifacts" "/tmp/tmp0".

(** The sample world with a disk that fails on the last component. *)
Definition broken_world : @world file :=
  World (dirs sample_world) {[("/tmp/tmp0", "model.pt")]} ∅ None "" [] [].

(** [sep] occurs nowhere in [s]. *)
Fixpoint free_of (sep s : string) : bool :=
  negb (String.prefix sep s)
  && match s with
     | EmptyString => true
     | String _ s' => free_of sep s'
     end.

(** A session whose best trial carries no [threshold] attribute. *)
Definition bare_objective (n : nat) : script :=
  Script {["lr" := num (2 # 10)]} [] (Ok (Q2Qc (5 # 10), ∅)).

(** Whether a read succeeded, without what it returned. *)
Definition outcome {A} (r : result A) : result unit :=
  match r with
  | Ok _ => Ok ()
  | Err e => Err e
  end.

(** The five reads of [load_artifacts] in the directory [d], in the order
    it makes them. *)
Definition component_reads {blob} (C : codecs blob) (d : string) (w : @world blob)
    : list (result unit) :=
  [ outcome (utils_load_dict C (d, "params.json") w);
    outcome (load_label_encoder C "label_encoder.json"
               (read_file w (d, "label_encoder.json")));
    outcome (load_tokenizer C "tokenizer.json" (read_file w (d, "tokenizer.json")));
    outcome (torch_load C "model.pt" (read_file w (d, "model.pt")));
    outcome (utils_load_dict C (d, "performance.json") w) ].

(** The error of the first read that failed. *)
Fixpoint first_error (reads : list (result unit)) : option exn :=
  match reads with
  | [] => None
  | Ok _ :: rest => first_error rest
  | Err e :: _ => Some e
  end.

(** The world after the sample training run, and the same with the
    weights file of the run deleted. *)
Definition trained_world : @world file :=
  (train_model typed_files sample_train sample_choices sample_params_fp
     "best" "model" sample_world).2.

Definition weights_deleted_world : @world file :=
  set_dirs (alter (delete "model.pt") "/mlruns/0/run1/artifacts") trained_world.

(** * Properties *)

(** ** The best trial of a study *)

Lemma improves_completed best t :
  improves best t = true → state t = COMPLETE ∧ ∃ v, value t = Some v.
Proof.
  unfold improves. destruct (state t), (value t); try discriminate; eauto.
Qed.

Lemma foldl_update_best study :
  match foldl update_best None study with
  | Some b => is_best study b
  | None => no_completed study
  end.
Proof.
  induction study as [|x l IH] using rev_ind; simpl.
  { intros j t u Hj. by rewrite lookup_nil in Hj. }
  rewrite foldl_app. simpl. unfold update_best at 1.
  destruct (improves (foldl update_best None l) x) eqn:Himp.
  - destruct (improves_completed _ _ Himp) as [Hst [v Hv]].
    exists (length l), v. split_and!; auto.
    { by rewrite lookup_app_r, Nat.sub_diag by lia. }
    intros j t u Hj Ht Hu.
    destruct (decide (j < length l)) as [Hlt|Hge].
    + rewrite lookup_app_l in Hj by done.
      destruct (foldl update_best None l) as [b|] eqn:Hb.
      * destruct IH as (i & vb & Hi & Hbst & Hbv & Hmax).
        destruct (Hmax j t u Hj Ht Hu) as [Hle _].
        unfold improves in Himp. rewrite Hst, Hv, Hbv in Himp.
        apply bool_decide_eq_true in Himp.
        split.
        -- apply Qclt_le_weak. eapply Qcle_lt_trans; eauto.
        -- intros ->. exfalso. eapply Qcle_not_lt; eauto.
      * exfalso. eapply IH; eauto.
    + rewrite lookup_app_r in Hj by lia.
      apply list_lookup_singleton_Some in Hj as [Hj ->].
      assert (u = v) as -> by congruence.
      split; [apply Qcle_refl | lia].
  - destruct (foldl update_best None l) as [b|] eqn:Hb.
    + destruct IH as (i & vb & Hi & Hbst & Hbv & Hmax).
      exists i, vb. split_and!; auto.
      { by apply lookup_app_l_Some. }
      intros j t u Hj Ht Hu.
      destruct (decide (j < length l)) as [Hlt|Hge].
      * rewrite lookup_app_l in Hj by done. eauto.
      * rewrite lookup_app_r in Hj by lia.
        apply list_lookup_singleton_Some in Hj as [Hj ->].
        unfold improves in Himp. rewrite Ht, Hu, Hbv in Himp.
        apply bool_decide_eq_false in Himp.
        apply lookup_lt_Some in Hi.
        split; [by apply Qcnot_lt_le | lia].
    + intros j t u Hj Ht Hu.
      destruct (decide (j < length l)) as [Hlt|Hge].
      * rewrite lookup_app_l in Hj by done. eapply IH; eauto.
      * rewrite lookup_app_r in Hj by lia.
        apply list_lookup_singleton_Some in Hj as [Hj ->].
        unfold improves in Himp. by rewrite Ht, Hu in Himp.
Qed.

Lemma best_trial_is_best study b : best_trial study = Ok b → is_best study b.
Proof.
  unfold best_trial. pose proof (foldl_update_best study) as H.
  destruct (foldl update_best None study); [|discriminate].
  by intros [= <-].
Qed.

Lemma best_trial_none study e : best_trial study = Err e → no_completed study.
Proof.
  unfold best_trial. pose proof (foldl_update_best study) as H.
  by destruct (foldl update_best None study).
Qed.

Lemma run_trial_number others sc : number (run_trial others sc).1 = length others.
Proof.
  unfold run_trial. destruct (report_loop others [] (reports sc)) as [seen [|]]; [done|].
  by destruct (ending sc) as [[v attrs]|e].
Qed.

Lemma numbered_snoc study t :
  numbered study → number t = length study → numbered (study ++ [t]).
Proof.
  intros Hn Ht i t' Hi. destruct (decide (i < length study)).
  - rewrite lookup_app_l in Hi by done. eauto.
  - rewrite lookup_app_r in Hi by lia.
    apply list_lookup_singleton_Some in Hi as [Hi ->]. lia.
Qed.

Lemma study_optimize_numbered objective n study :
  numbered study → numbered (study_optimize objective n study).1.
Proof.
  revert study. induction n as [|n IH]; intros study Hn; simpl; [done|].
  pose proof (run_trial_number study (objective (length study))) as Hnum.
  destruct (run_trial study (objective (length study))) as [t [e|]]; simpl in *.
  - by apply numbered_snoc.
  - apply IH. by apply numbered_snoc.
Qed.

(** ** Unfolding command steps *)

Section steps.
Context {blob : Type}.
Implicit Types w : @world blob.

Lemma bind_ok {A B} (m : M A) (k : A → M B) w b w' :
  (m ≫= k) w = (Ok b, w') →
  ∃ a w1, m w = (Ok a, w1) ∧ k a w1 = (Ok b, w').
Proof.
  unfold mbind, M_bind. destruct (m w) as [[a|e] w1]; [eauto|discriminate].
Qed.

Lemma bind_err {A B} (m : M A) (k : A → M B) w e w' :
  (m ≫= k) w = (Err e, w') →
  m w = (Err e, w') ∨ ∃ a w1, m w = (Ok a, w1) ∧ k a w1 = (Err e, w').
Proof.
  unfold mbind, M_bind. destruct (m w) as [[a|e1] w1]; [eauto|].
  intros [= -> ->]. by left.
Qed.

Lemma lift_ok {A} (r : result A) w a w' :
  lift r w = (Ok a, w') → r = Ok a ∧ w' = w.
Proof. unfold lift. by intros [= -> ->]. Qed.

Lemma reading_ok {A} (f : world → result A) w a w' :
  reading f w = (Ok a, w') → f w = Ok a ∧ w' = w.
Proof. unfold reading. by intros [= -> ->]. Qed.

Lemma update_ok (f : world → world) w (u : unit) w' :
  update f w = (Ok u, w') → w' = f w.
Proof. unfold update. destruct u. by intros [= <-]. Qed.
End steps.

(** ** [optimize] *)

Section optimize_props.
Context {blob : Type} (C : codecs blob).
Implicit Types w : @world blob.

Lemma merge_best_lookup base best merged :
  merge_best base best = Ok merged →
  ∃ threshold,
    user_attrs best !! "threshold" = Some threshold ∧
    merged !! "threshold" = Some threshold ∧
    ∀ k, k ≠ "threshold" →
      merged !! k = match params best !! k with
                    | Some x => Some x
                    | None => base !! k
                    end.
Proof.
  unfold merge_best, getitem.
  destruct (user_attrs best !! "threshold") as [th|] eqn:Hth; [|discriminate].
  intros [= <-]. exists th. split_and!; auto.
  - apply lookup_insert_eq.
  - intros k Hk. rewrite lookup_insert_ne by done.
    rewrite lookup_union. by destruct (params best !! k), (base !! k).
Qed.

Lemma write_file_ok p b w u w' :
  write_file p b w = (Ok u, w') →
  read_file w' p = Some b ∧ ∀ q, q ≠ p → read_file w' q = read_file w q.
Proof.
  unfold write_file. destruct (decide (p ∈ faulty w)); [discriminate|].
  destruct (dirs w !! p.1) as [files|] eqn:Hd; [|discriminate].
  intros [= _ <-]. unfold read_file; simpl. split.
  - rewrite lookup_insert_eq. simpl. apply lookup_insert_eq.
  - intros q Hq. destruct (decide (p.1 = q.1)) as [Heq|Hne].
    + rewrite <-Heq, lookup_insert_eq, Hd. simpl.
      apply lookup_insert_ne. destruct p, q; simpl in *; congruence.
    + by rewrite lookup_insert_ne.
Qed.

(** C1: a search that completes returns, and writes back to the
    parameter file, the base parameters merged with the hyperparameters of
    the best trial: the completed trial with the greatest final value, the
    earliest submitted one among equals.  The values of the trial override
    the base values and [threshold] holds the trial's [threshold] user
    attribute. *)
Theorem optimize_returns_best_merged objective params_fp study_name num_trials
    w merged w' :
  optimize C objective params_fp study_name num_trials w = (Ok merged, w') →
  ∃ base study best threshold,
    utils_load_dict C params_fp w = Ok base ∧
    study_optimize objective num_trials [] = (study, None) ∧
    is_best study best ∧
    (∀ i t, study !! i = Some t → number t = i) ∧
    user_attrs best !! "threshold" = Some threshold ∧
    merged !! "threshold" = Some threshold ∧
    (∀ k, k ≠ "threshold" →
       merged !! k = match params best !! k with
                     | Some x => Some x
                     | None => base !! k
                     end) ∧
    read_file w' params_fp = Some (save_dict C merged).
Proof.
  unfold optimize. intros H.
  apply bind_ok in H as (base & w1 & Hbase & H).
  apply reading_ok in Hbase as [Hbase ->].
  apply bind_ok in H as (study & w2 & Hstudy & H).
  apply bind_ok in H as (trials_df & w2' & Hdf & H).
  apply lift_ok in Hdf as [_ ->].
  apply bind_ok in H as (best & w3 & Hbest & H).
  apply lift_ok in Hbest as [Hbest ->].
  apply bind_ok in H as ([] & w4 & _ & H).
  apply bind_ok in H as (merged' & w5 & Hm & H).
  apply lift_ok in Hm as [Hm ->].
  apply bind_ok in H as ([] & w6 & Hsave & H).
  apply bind_ok in H as ([] & w7 & Hlog & H).
  apply update_ok in Hlog as ->.
  injection H as <- <-.
  unfold run_study in Hstudy.
  pose proof (study_optimize_numbered objective num_trials []) as Hnum.
  destruct (study_optimize objective num_trials []) as [st [e|]] eqn:Hso;
    [discriminate|].
  injection Hstudy as <- <-.
  destruct (merge_best_lookup _ _ _ Hm) as (th & Hth & Hmth & Hother).
  exists base, st, best, th. split_and!; auto.
  - by apply best_trial_is_best.
  - apply Hnum. intros i t Hi. by rewrite lookup_nil in Hi.
  - apply write_file_ok in Hsave as [Hr _]. done.
Qed.
End optimize_props.

Lemma optimize_returns_best_merged_witness :
  ∃ merged w',
    optimize typed_files sample_objective sample_params_fp "optimization" 3
      sample_world = (Ok merged, w') ∧
    ∃ base study best threshold,
      utils_load_dict typed_files sample_params_fp sample_world = Ok base ∧
      study_optimize sample_objective 3 [] = (study, None) ∧
      is_best study best ∧
      (∀ i t, study !! i = Some t → number t = i) ∧
      user_attrs best !! "threshold" = Some threshold ∧
      merged !! "threshold" = Some threshold ∧
      (∀ k, k ≠ "threshold" →
         merged !! k = match params best !! k with
                       | Some x => Some x
                       | None => base !! k
                       end) ∧
      read_file w' sample_params_fp = Some (save_dict typed_files merged).
Proof.
  eexists _, _. split.
  - vm_compute. reflexivity.
  - apply (optimize_returns_best_merged typed_files sample_objective
             sample_params_fp "optimization" 3 sample_world).
    vm_compute. reflexivity.
Defined.

(** The scenario of three trials with the values 0.5, 0.9 and 0.3: the
    second trial is the best one. *)
Example sample_best_trial :
  ∃ t, best_trial (study_optimize sample_objective 3 []).1 = Ok t ∧ number t = 1.
Proof. eexists. split; [vm_compute; reflexivity | reflexivity]. Qed.

Lemma run_trial_outcome others sc :
  match run_trial others sc with
  | (t, Some e) => state t = FAIL ∧ ending sc = Err e
  | (t, None) => state t = PRUNED ∨ state t = COMPLETE
  end.
Proof.
  unfold run_trial. destruct (report_loop others [] (reports sc)) as [seen [|]].
  - by left.
  - destruct (ending sc) as [[v attrs]|e]; [by right | done].
Qed.

Lemma study_optimize_outcome objective n study0 :
  none_failed study0 →
  match study_optimize objective n study0 with
  | (study, Some e) =>
      ∃ pre t, study = pre ++ [t] ∧ none_failed pre ∧ state t = FAIL ∧
               ending (objective (length pre)) = Err e ∧
               length pre < length study0 + n
  | (study, None) => none_failed study ∧ length study = length study0 + n
  end.
Proof.
  revert study0. induction n as [|n IH]; intros study0 H0; simpl.
  { split; [done | lia]. }
  pose proof (run_trial_outcome study0 (objective (length study0))) as Ht.
  destruct (run_trial study0 (objective (length study0))) as [t [e|]].
  - destruct Ht as [Hst He]. exists study0, t. split_and!; auto. lia.
  - assert (none_failed (study0 ++ [t])) as H1.
    { apply Forall_app. split; [done|]. apply Forall_singleton.
      destruct Ht as [-> | ->]; done. }
    specialize (IH _ H1).
    destruct (study_optimize objective n (study0 ++ [t])) as [study [e|]].
    + destruct IH as (pre & t' & -> & Hpre & Hst & He & Hlen).
      exists pre, t'. split_and!; auto. rewrite length_app in Hlen. simpl in Hlen. lia.
    + destruct IH as [Hnf Hlen]. split; [done|].
      rewrite length_app in Hlen. simpl in Hlen. lia.
Qed.



Section search_failure.
Context {blob : Type} (C : codecs blob).
Implicit Types w : @world blob.

End search_failure.



(** ** The structural diff *)

Lemma depth_lookup (d : dict) k v : d !! k = Some v → depth v < depth (JDict d).
Proof.
  simpl. revert k v.
  induction d as [|i x m Hi Hfold IH] using map_first_key_ind.
  - intros k v. by rewrite lookup_empty.
  - intros k v Hk. rewrite map_fold_insert_first_key by done.
    destruct (decide (i = k)) as [->|Hne].
    + rewrite lookup_insert_eq in Hk. injection Hk as ->. lia.
    + rewrite lookup_insert_ne in Hk by done. specialize (IH _ _ Hk). lia.
Qed.

(** Induction over documents: a mapping has the property when all its
    values have it. *)
Lemma json_nested_ind (P : json → Prop) :
  (∀ s, P (JLeaf s)) →
  (∀ d : dict, map_Forall (λ _, P) d → P (JDict d)) →
  ∀ j, P j.
Proof.
  intros Hleaf Hdict j.
  remember (depth j) as n eqn:Hn. revert j Hn.
  induction n as [n IH] using lt_wf_ind. intros [s|d] Hn; [apply Hleaf|].
  apply Hdict. intros k v Hk. apply (IH (depth v)); [|done].
  subst. by eapply depth_lookup.
Qed.

Lemma diff_added_removed a b : diff_added a b = diff_removed b a.
Proof.
  revert b. induction a as [s|d IH] using json_nested_ind; intros [t|db]; try done.
  simpl. apply map_eq. intros i. rewrite !lookup_merge.
  destruct (d !! i) as [x|] eqn:Hx, (db !! i) as [y|] eqn:Hy; simpl; try done.
  by rewrite (IH i x Hx y).
Qed.

Lemma nested_empty : nested ∅ = None.
Proof. unfold nested. by rewrite dom_empty_L, decide_True. Qed.

Lemma diff_added_self a : diff_added a a = ∅.
Proof.
  induction a as [s|d IH] using json_nested_ind; [done|].
  simpl. apply map_eq. intros i. rewrite lookup_merge, lookup_empty.
  destruct (d !! i) as [x|] eqn:Hx; simpl; [|done].
  by rewrite (IH i x Hx), nested_empty.
Qed.

Lemma diff_changed_self a_name b_name a : diff_changed a_name b_name a a = ∅.
Proof.
  induction a as [s|d IH] using json_nested_ind; [done|].
  simpl. apply map_eq. intros i. rewrite lookup_merge, lookup_empty.
  destruct (d !! i) as [x|] eqn:Hx; simpl; [|done].
  destruct x as [s|dx].
  - by rewrite decide_True.
  - by rewrite (IH i _ Hx), nested_empty.
Qed.

(** C5: what the diff of A against B reports as added is what the diff of
    B against A reports as removed, and the other way round; the diff of a
    mapping against itself has empty added, removed and changed
    mappings. *)
Theorem dict_diff_symmetry (A B : dict) (a_name b_name : string) :
  added (dict_diff A B a_name b_name) = removed (dict_diff B A b_name a_name) ∧
  removed (dict_diff A B a_name b_name) = added (dict_diff B A b_name a_name) ∧
  dict_diff A A a_name b_name = MkDiff ∅ ∅ ∅.
Proof.
  split_and!.
  - exact (diff_added_removed (JDict A) (JDict B)).
  - symmetry. exact (diff_added_removed (JDict B) (JDict A)).
  - unfold dict_diff. f_equal.
    + exact (diff_added_self (JDict A)).
    + rewrite <-(diff_added_removed (JDict A) (JDict A)).
      exact (diff_added_self (JDict A)).
    + exact (diff_changed_self a_name b_name (JDict A)).
Qed.

(** The scenario of the parameters [{lr: 0.1}] against
    [{lr: 0.2, batch: 32}]. *)
Example dict_diff_scenario :
  dict_diff {["lr" := num (1 # 10)]}
            (<["batch" := num 32]> {["lr" := num (2 # 10)]}) "A" "B"
  = MkDiff {["batch" := num 32]} ∅
           {["lr" := JDict (<["B" := num (2 # 10)]> {["A" := num (1 # 10)]})]}.
Proof. vm_compute. reflexivity. Qed.

(** ** Pruning *)

Lemma report_loop_spec others seen todo :
  match report_loop others seen todo with
  | (seen', true) =>
      ∃ k v, todo !! k = Some v ∧ seen' = seen ++ take (S k) todo ∧
             should_prune others (length seen + k) v = true ∧
             ∀ j u, j < k → todo !! j = Some u →
                    should_prune others (length seen + j) u = false
  | (seen', false) =>
      seen' = seen ++ todo ∧
      ∀ j u, todo !! j = Some u → should_prune others (length seen + j) u = false
  end.
Proof.
  revert seen. induction todo as [|v todo IH]; intros seen; simpl.
  { split; [by rewrite app_nil_r|]. intros j u Hj. by rewrite lookup_nil in Hj. }
  destruct (should_prune others (length seen) v) eqn:Hp.
  - exists 0, v. split_and!; auto.
    + by rewrite Nat.add_0_r.
    + intros j u Hj. lia.
  - specialize (IH (seen ++ [v])). rewrite length_app in IH. simpl in IH.
    destruct (report_loop others (seen ++ [v]) todo) as [seen' [|]].
    + destruct IH as (k & x & Hk & -> & Hpk & Hbefore).
      exists (S k), x. split_and!; auto.
      * by rewrite <-app_assoc.
      * by replace (length seen + S k) with (length seen + 1 + k) by lia.
      * intros [|j] u Hj Hu; simpl in Hu.
        -- injection Hu as <-. by rewrite Nat.add_0_r.
        -- replace (length seen + S j) with (length seen + 1 + j) by lia.
           apply Hbefore; [lia | done].
    + destruct IH as [-> Hall]. split; [by rewrite <-app_assoc|].
      intros [|j] u Hu; simpl in Hu.
      * injection Hu as <-. by rewrite Nat.add_0_r.
      * replace (length seen + S j) with (length seen + 1 + j) by lia. by apply Hall.
Qed.

Lemma should_prune_true others step v :
  should_prune others step v = true ↔
  n_startup_trials ≤ length others ∧ n_warmup_steps ≤ step ∧
  ∃ m, median (values_at_step others step) = Some m ∧ (v < m)%Qc.
Proof.
  unfold should_prune, eligible.
  rewrite !andb_true_iff, !bool_decide_eq_true.
  destruct (median (values_at_step others step)) as [m|].
  - rewrite bool_decide_eq_true. split.
    + intros [[H1 H2] H3]. eauto.
    + intros (H1 & H2 & m' & [= <-] & H3). auto.
  - split; [intros [_ [=]] | intros (_ & _ & m & [=] & _)].
Qed.

(** C7: a trial is pruned only at a report past the warm-up steps and
    after the startup trials, where its value is strictly below the median
    of the other trials' values at that step; and a report that meets
    these conditions stops the trial, which is then pruned and not
    completed and has no value reported after that step. *)
Theorem median_pruning others sc :
  let t := (run_trial others sc).1 in
  (state t = PRUNED →
     ∃ step v m,
       reports sc !! step = Some v ∧
       n_startup_trials ≤ length others ∧ n_warmup_steps ≤ step ∧
       median (values_at_step others step) = Some m ∧ (v < m)%Qc ∧
       intermediate_values t = take (S step) (reports sc)) ∧
  (∀ step v m,
     reports sc !! step = Some v →
     n_startup_trials ≤ length others → n_warmup_steps ≤ step →
     median (values_at_step others step) = Some m → (v < m)%Qc →
     state t = PRUNED ∧ state t ≠ COMPLETE ∧
     length (intermediate_values t) ≤ S step).
Proof.
  unfold run_trial.
  pose proof (report_loop_spec others [] (reports sc)) as H.
  destruct (report_loop others [] (reports sc)) as [seen [|]]; simpl in *.
  - destruct H as (k & v & Hk & -> & Hp & Hbefore). split.
    + intros _. apply should_prune_true in Hp as (H1 & H2 & m & Hm & Hlt).
      exists k, v, m. split_and!; auto.
    + intros step x m Hstep H1 H2 Hm Hlt. split_and!; [done..|].
      destruct (decide (step < k)) as [Hlt'|Hge].
      * assert (should_prune others step x = true) as Htrue.
        { apply should_prune_true. eauto. }
        rewrite (Hbefore step x Hlt' Hstep) in Htrue. discriminate.
      * rewrite length_take. lia.
  - destruct H as [-> Hall]. split.
    + by destruct (ending sc) as [[v attrs]|e].
    + intros step x m Hstep H1 H2 Hm Hlt. exfalso.
      assert (should_prune others step x = true) as Htrue.
      { apply should_prune_true. eauto. }
      rewrite (Hall step x Hstep) in Htrue. discriminate.
Qed.

Lemma median_pruning_witness :
  let t := (run_trial steady_study lagging_script).1 in
  state t = PRUNED ∧ state t ≠ COMPLETE ∧ length (intermediate_values t) ≤ 6.
Proof.
  destruct (median_pruning steady_study lagging_script) as [_ H].
  apply (H 5 (Q2Qc (4 # 10)) (Q2Qc (5 # 10))).
  - reflexivity.
  - unfold n_startup_trials. simpl. lia.
  - unfold n_warmup_steps. lia.
  - vm_compute. reflexivity.
  - vm_compute. reflexivity.
Defined.

(** ** [behavioral_reevaluation] and [diff] *)

Section stale_calls.
Context {blob : Type} (C : codecs blob).
Context (get_behavioral_report : bundle → result json).
Context (load_json_from_url : string → result (list json)).
Implicit Types w : @world blob.

(** C9 is not what the code does: [behavioral_reevaluation] calls
    [load_artifacts(model_dir=model_dir)], and [load_artifacts] has no
    parameter of that name, so that every call raises [TypeError] before
    anything is loaded, scored, logged or written. *)
Theorem behavioral_reevaluation_raises ch model_dir w :
  behavioral_reevaluation C get_behavioral_report ch model_dir w
  = (Err (TypeError "load_artifacts() got an unexpected keyword argument 'model_dir'"), w).
Proof. reflexivity. Qed.

Lemma call_params_raises tag author repo w :
  call_params C [("author", str author); ("repo", str repo); ("tag", tag);
                 ("verbose", JLeaf (SBool false))] w
  = (Err (TypeError "params() got an unexpected keyword argument 'author'"), w).
Proof. reflexivity. Qed.

(** What [diff] does: the tag of side B is resolved, the comparison is
    announced, and the first call [params(author=..., repo=..., tag=...,
    verbose=False)] raises [TypeError], [params] having the single
    parameter [run_id]. *)
Lemma diff_outcome author repo tag_a tag_b w :
  diff C load_json_from_url author repo tag_a tag_b w
  = match resolve_tag_b load_json_from_url author repo tag_b with
    | Ok tag =>
        (Err (TypeError "params() got an unexpected keyword argument 'author'"),
         add_logged (Info "Comparing {} with {}:" [str tag_a; tag]) w)
    | Err e => (Err e, w)
    end.
Proof.
  unfold diff, mbind at 1, M_bind at 1, lift at 1.
  by destruct (resolve_tag_b load_json_from_url author repo tag_b).
Qed.

(** C10: with an empty [tag_b], side B is the [name] of the first entry
    of the tag listing fetched from the remote repository, and that
    happens before anything else: the comparison is announced with the
    resolved tag, and a failing resolution ends the command with nothing
    logged or compared.  A non-empty [tag_b] is used as it is given. *)
Theorem diff_resolves_tag_b author repo tag_a tag_b w :
  (tag_b = "" →
     ∀ listing first name,
       load_json_from_url (tags_url author repo) = Ok listing →
       listing !! 0 = Some first →
       subscript first "name" = Ok name →
       resolve_tag_b load_json_from_url author repo tag_b = Ok name ∧
       logged (diff C load_json_from_url author repo tag_a tag_b w).2
       = logged w ++ [Info "Comparing {} with {}:" [str tag_a; name]]) ∧
  (tag_b ≠ "" →
     resolve_tag_b load_json_from_url author repo tag_b = Ok (str tag_b) ∧
     logged (diff C load_json_from_url author repo tag_a tag_b w).2
     = logged w ++ [Info "Comparing {} with {}:" [str tag_a; str tag_b]]) ∧
  (∀ e, resolve_tag_b load_json_from_url author repo tag_b = Err e →
        diff C load_json_from_url author repo tag_a tag_b w = (Err e, w)).
Proof.
  split_and!.
  - intros -> listing first name Hl Hf Hn.
    assert (resolve_tag_b load_json_from_url author repo "" = Ok name) as Hr.
    { unfold resolve_tag_b, latest_tag. simpl. rewrite Hl. simpl. by rewrite Hf. }
    split; [done|]. by rewrite diff_outcome, Hr.
  - intros Hne.
    assert (resolve_tag_b load_json_from_url author repo tag_b = Ok (str tag_b)) as Hr.
    { unfold resolve_tag_b. by rewrite decide_False. }
    split; [done|]. by rewrite diff_outcome, Hr.
  - intros e He. by rewrite diff_outcome, He.
Qed.
End stale_calls.

Lemma diff_resolves_tag_b_witness :
  resolve_tag_b sample_listing "SiddharthaShandilya" "MLOps" ""
  = Ok (JLeaf (SStr "v0.2")) ∧
  logged (diff typed_files sample_listing "SiddharthaShandilya" "MLOps"
            "workspace" "" sample_world).2
  = logged sample_world
    ++ [Info "Comparing {} with {}:" [JLeaf (SStr "workspace"); JLeaf (SStr "v0.2")]].
Proof.
  destruct (diff_resolves_tag_b typed_files sample_listing
              "SiddharthaShandilya" "MLOps" "workspace" "" sample_world)
    as [H _].
  eapply (H eq_refl _ (JDict {["name" := JLeaf (SStr "v0.2")]}) (JLeaf (SStr "v0.2")));
    reflexivity.
Defined.

(** ** [train_model]: staging and publishing *)

Section train_model_props.
Context {blob : Type} (C : codecs blob).
Context (train_train : dict → result (bundle * Qc)).
Implicit Types w : @world blob.

Lemma bind_inv {A B} (m : M A) (k : A → M B) w res w2 :
  (m ≫= k) w = (res, w2) →
  (∃ e, m w = (Err e, w2) ∧ res = Err e) ∨
  (∃ a w1, m w = (Ok a, w1) ∧ k a w1 = (res, w2)).
Proof.
  unfold mbind, M_bind. destruct (m w) as [[a|e] w1]; [eauto|].
  intros [= <- <-]. eauto.
Qed.

Lemma ensure_run_active ch id w :
  active_run w = Some id → ensure_run ch w = (Ok id, w).
Proof. unfold ensure_run. by intros ->. Qed.

Lemma on_active_run_active ch f id w :
  active_run w = Some id →
  on_active_run ch f w = (Ok (), set_tracking (alter f id) w).
Proof.
  intros H. unfold on_active_run, mbind, M_bind. by rewrite (ensure_run_active _ _ _ H).
Qed.

Lemma run_kept_alter f id uri w :
  keeps_uri f → run_kept id uri w → run_kept id uri (set_tracking (alter f id) w).
Proof.
  intros Hf [Ha (r & Hr & Hu)]. split; [done|].
  exists (f r). cbn. rewrite lookup_alter_eq, Hr. split; [done|]. by rewrite Hf.
Qed.

Lemma on_active_run_calm ch f id uri w res w' :
  keeps_uri f → run_kept id uri w →
  on_active_run ch f w = (res, w') →
  res = Ok () ∧ calm id uri w w' ∧ tracking w' = alter f id (tracking w).
Proof.
  intros Hf Hk. rewrite (on_active_run_active _ _ id) by apply Hk.
  intros [= <- <-]. split; [done|]. split; [|done].
  split_and!; [done..|]. by apply run_kept_alter.
Qed.

Lemma logger_info_calm m v id uri w res w' :
  run_kept id uri w →
  logger_info m v w = (res, w') →
  res = Ok () ∧ calm id uri w w' ∧ tracking w' = tracking w.
Proof. intros Hk [= <- <-]. done. Qed.

Lemma calm_refl id uri w : run_kept id uri w → calm id uri w w.
Proof. done. Qed.

Lemma calm_trans id uri w1 w2 w3 :
  calm id uri w1 w2 → calm id uri w2 w3 → calm id uri w1 w3.
Proof. intros (?&?&?) (?&?&?). split_and!; [congruence..|done]. Qed.
Lemma write_staged dp n b files w :
  dirs w !! dp = Some files →
  write_file (dp, n) b w =
  if decide ((dp, n) ∈ faulty w) then (Err (OSError (dp, n)), w)
  else (Ok (), set_dirs <[dp := <[n := b]> files]> w).
Proof. intros H. unfold write_file. cbn [fst snd]. by rewrite H. Qed.

Lemma then_write_staged dp n b files (k : M unit) w :
  dirs w !! dp = Some files →
  (write_file (dp, n) b ;; k) w =
  if decide ((dp, n) ∈ faulty w) then (Err (OSError (dp, n)), w)
  else k (set_dirs <[dp := <[n := b]> files]> w).
Proof.
  intros H. unfold mbind, M_bind. rewrite (write_staged _ _ _ _ _ H).
  by destruct (decide _).
Qed.

Lemma stage_bundle_outcome b dp w :
  dirs w !! dp = Some ∅ →
  ∃ files,
    (stage_bundle C b dp w).2 = set_dirs <[dp := files]> w ∧
    match (stage_bundle C b dp w).1 with
    | Ok _ => files = staged_files C b ∧ Forall (λ n, (dp, n) ∉ faulty w) component_files
    | Err _ => Exists (λ n, (dp, n) ∈ faulty w) component_files
    end.
Proof.
  destruct w as [ds fl tr ac ex lg tm]. cbn [dirs faulty]. intros Hdp.
  unfold stage_bundle, utils_save_dict, component_files, staged_files.
  rewrite (then_write_staged _ _ _ ∅) by exact Hdp.
  unfold set_dirs; cbn [faulty dirs tracking active_run experiment logged trial_metrics].
  destruct (decide ((dp, "params.json") ∈ fl)).
  { exists ∅. unfold set_dirs; cbn [fst snd dirs faulty tracking active_run experiment logged trial_metrics].
    rewrite insert_id by done. split; [done|]. rewrite !Exists_cons; auto. }
  rewrite (then_write_staged _ _ _ (<["params.json" := _]> ∅)) by apply lookup_insert_eq.
  unfold set_dirs; cbn [faulty dirs tracking active_run experiment logged trial_metrics].
  rewrite insert_insert_eq.
  destruct (decide ((dp, "performance.json") ∈ fl)).
  { eexists. unfold set_dirs; cbn [fst snd dirs faulty tracking active_run experiment logged trial_metrics].
    split; [reflexivity|]. rewrite !Exists_cons; auto. }
  rewrite (then_write_staged _ _ _ (<["performance.json" := _]> (<["params.json" := _]> ∅)))
    by apply lookup_insert_eq.
  unfold set_dirs; cbn [faulty dirs tracking active_run experiment logged trial_metrics].
  rewrite insert_insert_eq.
  destruct (decide ((dp, "label_encoder.json") ∈ fl)).
  { eexists. unfold set_dirs; cbn [fst snd dirs faulty tracking active_run experiment logged trial_metrics].
    split; [reflexivity|]. rewrite !Exists_cons; auto. }
  rewrite (then_write_staged _ _ _
             (<["label_encoder.json" := _]> (<["performance.json" := _]> (<["params.json" := _]> ∅))))
    by apply lookup_insert_eq.
  unfold set_dirs; cbn [faulty dirs tracking active_run experiment logged trial_metrics].
  rewrite insert_insert_eq.
  destruct (decide ((dp, "tokenizer.json") ∈ fl)).
  { eexists. unfold set_dirs; cbn [fst snd dirs faulty tracking active_run experiment logged trial_metrics].
    split; [reflexivity|]. rewrite !Exists_cons; auto. }
  rewrite (write_staged _ _ _
             (<["tokenizer.json" := _]> (<["label_encoder.json" := _]>
               (<["performance.json" := _]> (<["params.json" := _]> ∅)))))
    by apply lookup_insert_eq.
  unfold set_dirs; cbn [faulty dirs tracking active_run experiment logged trial_metrics].
  rewrite insert_insert_eq.
  destruct (decide ((dp, "model.pt") ∈ fl)).
  { eexists. unfold set_dirs; cbn [fst snd dirs faulty tracking active_run experiment logged trial_metrics].
    split; [reflexivity|]. rewrite !Exists_cons; tauto. }
  eexists. unfold set_dirs; cbn [fst snd dirs faulty tracking active_run experiment logged trial_metrics].
  split; [reflexivity|]. split; [reflexivity|]. repeat (apply Forall_cons; split; [done|]). apply Forall_nil_2.
Qed.

Lemma log_artifacts_kept ch dp id uri w :
  run_kept id uri w →
  log_artifacts ch dp w = (Ok (), copy_into dp (local_path uri) w).
Proof.
  intros [Ha (r & Hr & Hu)]. unfold log_artifacts, mbind, M_bind.
  rewrite (ensure_run_active _ _ _ Ha). unfold reading, get_run. by rewrite Hr, Hu.
Qed.

(** The staging block of [train_model], run in a world where the
    temporary directory is new. *)
Lemma staging_block ch b id uri w res w' :
  let dp := new_tmp_dir ch in
  let dest := local_path uri in
  run_kept id uri w →
  is_Some (dirs w !! dest) →
  temporary_directory dp (stage_bundle C b dp;; log_artifacts ch dp) w = (res, w') →
  faulty w' = faulty w ∧ tracking w' = tracking w ∧ active_run w' = active_run w ∧
  match res with
  | Ok _ =>
      dirs w !! dp = None ∧
      Forall (λ n, (dp, n) ∉ faulty w) component_files ∧
      dirs w' = <[dest := staged_files C b ∪ default ∅ (dirs w !! dest)]> (dirs w)
  | Err _ => dirs w' = dirs w
  end.
Proof.
  intros dp dest Hk Hdest. unfold temporary_directory.
  destruct (dirs w !! dp) as [old|] eqn:Hdp.
  { intros [= <- <-]. done. }
  assert (dp ≠ dest) as Hne.
  { intros Heq. rewrite <-Heq, Hdp in Hdest. by destruct Hdest. }
  unfold with_block, mbind, M_bind.
  set (w0 := set_dirs <[dp:=∅]> w).
  destruct (stage_bundle_outcome b dp w0) as (files & Hw & Hres).
  { unfold w0; cbn. apply lookup_insert_eq. }
  destruct (stage_bundle C b dp w0) as [[[]|e] w1]; cbn [fst snd] in Hw, Hres.
  - destruct Hres as [-> Hfaulty]. subst w1.
    rewrite (log_artifacts_kept ch dp id uri) by (destruct Hk as [? ?]; done).
    intros [= <- <-]. unfold w0, copy_into; cbn.
    split_and!; [done..|].
    rewrite insert_insert_eq, lookup_insert_eq, lookup_insert_ne by done. cbn.
    rewrite delete_insert_ne by done.
    by rewrite delete_insert_eq, delete_id.
  - subst w1. intros [= <- <-]. unfold w0; cbn. split_and!; [done..|].
    by rewrite insert_insert_eq, delete_insert_eq, delete_id.
Qed.

Lemma keeps_uri_add_tags t : keeps_uri (add_tags t).
Proof. done. Qed.
Lemma keeps_uri_add_metrics m : keeps_uri (add_metrics m).
Proof. done. Qed.
Lemma keeps_uri_add_params p : keeps_uri (add_params p).
Proof. done. Qed.
Lemma keeps_uri_set_status s : keeps_uri (set_status s).
Proof. done. Qed.

Lemma lift_inv {A} (r : result A) w res w' :
  lift r w = (res, w') → r = res ∧ w' = w.
Proof. by intros [= <- <-]. Qed.

Lemma train_run_outcome ch params id uri w1 res w2 :
  let dp := new_tmp_dir ch in
  let dest := local_path uri in
  run_kept id uri w1 →
  is_Some (dirs w1 !! dest) →
  train_run C train_train ch params w1 = (res, w2) →
  faulty w2 = faulty w1 ∧ run_kept id uri w2 ∧
  match res with
  | Ok _ =>
      ∃ b loss m,
        train_train params = Ok (b, loss) ∧
        run_metrics (b_performance b) loss = Ok m ∧
        dirs w1 !! dp = None ∧
        Forall (λ n, (dp, n) ∉ faulty w1) component_files ∧
        dirs w2 = <[dest := staged_files C b ∪ default ∅ (dirs w1 !! dest)]> (dirs w1) ∧
        tracking w2 = alter (add_params (b_params b)) id
                        (alter (add_metrics m) id
                           (alter (add_tags ∅) id (tracking w1)))
  | Err _ => dirs w2 = dirs w1
  end.
Proof.
  intros dp dest Hk Hdest. unfold train_run. intros H.
  apply bind_inv in H as [(e & H & ->) | (rid & wa & Ha & H)];
    rewrite (ensure_run_active ch id) in * by apply Hk; [discriminate|].
  injection Ha as <- <-.
  apply bind_inv in H as [(e & H & ->) | ([] & wb & Hb & H)].
  { apply (logger_info_calm _ _ id uri) in H as (Hr & _); [discriminate|done]. }
  apply (logger_info_calm _ _ id uri) in Hb as (_ & (Hd1 & Hf1 & Hk1) & Ht1); [|done].
  apply bind_inv in H as [(e & H & ->) | ([b loss] & wc & Hc & H)].
  { apply lift_inv in H as [_ ->]. done. }
  apply lift_inv in Hc as [Htrain ->]. cbn [fst snd] in H.
  apply bind_inv in H as [(e & H & ->) | ([] & wd & Hd & H)].
  { apply (on_active_run_calm _ _ id uri) in H as (Hr & _); [discriminate|done..]. }
  apply (on_active_run_calm _ _ id uri) in Hd as (_ & (Hd2 & Hf2 & Hk2) & Ht2); [|done..].
  rewrite Hd1 in Hd2. rewrite Hf1 in Hf2. rewrite Ht1 in Ht2.
  apply bind_inv in H as [(e & H & ->) | (overall & we & He & H)].
  { apply lift_inv in H as [_ ->]. done. }
  apply lift_inv in He as [Hov ->].
  apply bind_inv in H as [(e & H & ->) | ([] & wf & Hf & H)].
  { apply (logger_info_calm _ _ id uri) in H as (Hr & _); [discriminate|done]. }
  apply (logger_info_calm _ _ id uri) in Hf as (_ & (Hd3 & Hf3 & Hk3) & Ht3); [|done].
  rewrite Hd2 in Hd3. rewrite Hf2 in Hf3. rewrite Ht2 in Ht3.
  apply bind_inv in H as [(e & H & ->) | (m & wg & Hg & H)].
  { apply lift_inv in H as [_ ->]. done. }
  apply lift_inv in Hg as [Hm ->].
  apply bind_inv in H as [(e & H & ->) | ([] & wh & Hh & H)].
  { apply (on_active_run_calm _ _ id uri) in H as (Hr & _); [discriminate|done..]. }
  apply (on_active_run_calm _ _ id uri) in Hh as (_ & (Hd4 & Hf4 & Hk4) & Ht4); [|done..].
  rewrite Hd3 in Hd4. rewrite Hf3 in Hf4. rewrite Ht3 in Ht4.
  assert (is_Some (dirs wh !! dest)) as Hdest4 by (by rewrite Hd4).
  apply bind_inv in H as [(e & H & ->) | ([] & wi & Hi & H)].
  { apply (staging_block ch b id uri) in H as (Hf5 & Ht5 & Ha5 & Hd5); [|done..].
    split_and!.
    - by rewrite Hf5.
    - destruct Hk4 as [Hact (r & Hr & Hu)]. split; [by rewrite Ha5|].
      exists r. by rewrite Ht5.
    - by rewrite Hd5. }
  apply (staging_block ch b id uri) in Hi as (Hf5 & Ht5 & Ha5 & Hdp & Hfl & Hd5); [|done..].
  assert (run_kept id uri wi) as Hk5.
  { destruct Hk4 as [Hact (r & Hr & Hu)]. split; [by rewrite Ha5|].
    exists r. by rewrite Ht5. }
  apply (on_active_run_calm _ _ id uri) in H as (-> & (Hd6 & Hf6 & Hk6) & Ht6); [|done..].
  split_and!; [by rewrite Hf6, Hf5 | done |].
  exists b, loss, m. split_and!; try done.
  - by rewrite <-Hd4.
  - by rewrite <-Hf4.
  - by rewrite Hd6, Hd5, Hd4.
  - by rewrite Ht6, Ht5, Ht4.
Qed.

Lemma make_dir_lookup d (ds : gmap string (gmap string blob)) :
  make_dir d ds !! d = Some (default ∅ (ds !! d)) ∧
  ∀ d', d' ≠ d → make_dir d ds !! d' = ds !! d'.
Proof.
  unfold make_dir. destruct (ds !! d) as [old|] eqn:Hd; cbn.
  - done.
  - split; [apply lookup_insert_eq|]. intros d' Hne. by apply lookup_insert_ne.
Qed.

Lemma insert_make_dir d x (ds : gmap string (gmap string blob)) :
  <[d := x]> (make_dir d ds) = <[d := x]> ds.
Proof.
  unfold make_dir. destruct (ds !! d); [done|]. apply insert_insert_eq.
Qed.

Lemma read_file_make_dir d p w :
  read_file (set_dirs (make_dir d) w) p = read_file w p.
Proof.
  unfold read_file; cbn. destruct (make_dir_lookup d (dirs w)) as [Hd Hne].
  destruct (decide (p.1 = d)) as [->|Hp].
  - rewrite Hd. by destruct (dirs w !! d).
  - by rewrite Hne.
Qed.

Lemma train_model_outcome ch params_fp experiment_name run_name w res w' :
  let id := new_run_id ch in
  let uri := new_artifact_uri ch in
  let dp := new_tmp_dir ch in
  let dest := local_path uri in
  train_model C train_train ch params_fp experiment_name run_name w = (res, w') →
  faulty w' = faulty w ∧
  match res with
  | Ok _ =>
      ∃ params b loss m,
        utils_load_dict C params_fp w = Ok params ∧
        train_train params = Ok (b, loss) ∧
        run_metrics (b_performance b) loss = Ok m ∧
        dirs w !! dp = None ∧ dp ≠ dest ∧
        Forall (λ n, (dp, n) ∉ faulty w) component_files ∧
        dirs w' = <[dest := staged_files C b ∪ default ∅ (dirs w !! dest)]> (dirs w) ∧
        active_run w' = None ∧
        tracking w' =
          alter (set_status "FINISHED") id
            (alter (add_params (b_params b)) id
               (alter (add_metrics m) id
                  (alter (add_tags ∅) id
                     (<[id := Run uri run_name experiment_name "RUNNING" ∅ ∅ ∅]>
                        (tracking w)))))
  | Err e =>
      (utils_load_dict C params_fp w = Err e ∧ w' = w) ∨
      (is_ok (utils_load_dict C params_fp w) = true ∧
       dirs w' = make_dir dest (dirs w) ∧ active_run w' = None ∧
       ∃ r, tracking w' !! id = Some r ∧ artifact_uri r = uri ∧ status r = "FAILED")
  end.
Proof.
  intros id uri dp dest. subst id uri dp dest. unfold train_model. intros H.
  apply bind_inv in H as [(e & H & ->) | (params & wa & Ha & H)].
  { injection H as Hl <-. split; [done|]. by left. }
  injection Ha as Hload <-.
  apply bind_inv in H as [(e & H & ->) | ([] & wb & Hb & H)]; [discriminate|].
  injection Hb as <-.
  unfold with_run in H.
  apply bind_inv in H as [(e & H & ->) | ([] & wc & Hc & H)]; [discriminate|].
  injection Hc as <-.
  unfold with_block in H.
  match type of H with
  | (let (_, _) := train_run _ _ _ _ ?w0 in _) = _ => set (w1 := w0) in *
  end.
  assert (run_kept (new_run_id ch) (new_artifact_uri ch) w1) as Hk.
  { split; [done|]. eexists. split; [apply lookup_insert_eq|done]. }
  assert (is_Some (dirs w1 !! local_path (new_artifact_uri ch))) as Hdest.
  { unfold w1; cbn. rewrite (proj1 (make_dir_lookup _ _)). eauto. }
  destruct (train_run C train_train ch params w1) as [r w2] eqn:Hrun.
  injection H as <- <-.
  apply (train_run_outcome ch params (new_run_id ch) (new_artifact_uri ch)) in Hrun as (Hf & Hk2 & Hres); [|done..].
  destruct (Hk2) as [Hact (r2 & Hr2 & Hu2)].
  split.
  { unfold end_run. rewrite Hact. cbn. by rewrite Hf. }
  destruct r as [[]|e]; cbn [is_ok].
  - destruct Hres as (b & loss & m & Htrain & Hm & Hdp & Hfl & Hd & Ht).
    unfold w1 in Hdp, Hd, Ht, Hfl; cbn in Hdp, Hd, Ht, Hfl.
    destruct (make_dir_lookup (local_path (new_artifact_uri ch)) (dirs w)) as [Hmk Hmkne].
    assert (new_tmp_dir ch ≠ local_path (new_artifact_uri ch)) as Hne.
    { intros Heq. rewrite Heq in Hdp. by rewrite Hmk in Hdp. }
    exists params, b, loss, m. split_and!; try done.
    + by rewrite Hmkne in Hdp.
    + unfold end_run. rewrite Hact. cbn. rewrite Hd, Hmk.
      cbn. apply insert_make_dir.
    + unfold end_run. by rewrite Hact.
    + unfold end_run. rewrite Hact. cbn. by rewrite Ht.
  - right. rewrite Hload. split; [done|].
    unfold end_run. rewrite Hact. cbn. split_and!; [by rewrite Hres | done |].
    exists (set_status "FAILED" r2). rewrite lookup_alter_eq, Hr2. done.
Qed.
End train_model_props.

Section train_model_files.
Context {blob : Type} (C : codecs blob).
Context (train_train : dict → result (bundle * Qc)).
Implicit Types w : @world blob.

Lemma read_file_dirs w w' p : dirs w' = dirs w → read_file w' p = read_file w p.
Proof. unfold read_file. by intros ->. Qed.

Lemma train_model_err_files ch params_fp experiment_name run_name w e w' :
  train_model C train_train ch params_fp experiment_name run_name w = (Err e, w') →
  ∀ p, read_file w' p = read_file w p.
Proof.
  intros H p. apply train_model_outcome in H as [_ [[_ ->]|(_ & Hd & _)]]; [done|].
  rewrite <-(read_file_make_dir (local_path (new_artifact_uri ch)) p w).
  by apply read_file_dirs.
Qed.

(** X3: A failing [train_model] leaves every file as it was. *)
Theorem train_model_failure_keeps_files ch params_fp experiment_name run_name w e :
  (train_model C train_train ch params_fp experiment_name run_name w).1 = Err e →
  ∀ p, read_file (train_model C train_train ch params_fp experiment_name run_name w).2 p
       = read_file w p.
Proof.
  destruct (train_model C train_train ch params_fp experiment_name run_name w)
    as [res w'] eqn:H. cbn [fst snd]. intros ->. by eapply train_model_err_files.
Qed.

(** X2: A write into the temporary directory that fails makes [train_model]
    fail with no file written anywhere. *)
Theorem train_model_interrupted_write ch params_fp experiment_name run_name w :
  Exists (λ n, (new_tmp_dir ch, n) ∈ faulty w) component_files →
  ∃ e, (train_model C train_train ch params_fp experiment_name run_name w).1 = Err e ∧
       ∀ n, read_file (train_model C train_train ch params_fp experiment_name run_name w).2
              (local_path (new_artifact_uri ch), n)
            = read_file w (local_path (new_artifact_uri ch), n).
Proof.
  intros Hex.
  destruct (train_model C train_train ch params_fp experiment_name run_name w)
    as [[[]|e] w'] eqn:H; cbn [fst snd].
  - apply train_model_outcome in H as [_ (p & b & l & m & _ & _ & _ & _ & _ & Hall & _)].
    exfalso. apply Exists_exists in Hex as (n & Hn & Hf).
    rewrite Forall_forall in Hall. by apply (Hall n Hn).
  - exists e. split; [done|]. intros n. by eapply train_model_err_files.
Qed.

(** X1: A [train_model] that returns has put the five component files, and
    nothing else, into the artifact location of its run, has left every
    other directory as it was and has removed its temporary directory. *)
Theorem train_model_publishes ch params_fp experiment_name run_name w :
  let out := train_model C train_train ch params_fp experiment_name run_name w in
  let dest := local_path (new_artifact_uri ch) in
  out.1 = Ok () →
  ∃ params b loss,
    utils_load_dict C params_fp w = Ok params ∧
    train_train params = Ok (b, loss) ∧
    (∀ n, read_file out.2 (dest, n)
          = match staged_files C b !! n with
            | Some x => Some x
            | None => read_file w (dest, n)
            end) ∧
    (∀ d n, d ≠ dest → read_file out.2 (d, n) = read_file w (d, n)) ∧
    dirs out.2 !! new_tmp_dir ch = None.
Proof.
  intros out dest. subst out dest.
  destruct (train_model C train_train ch params_fp experiment_name run_name w)
    as [res w'] eqn:H. cbn [fst snd]. intros ->.
  apply train_model_outcome in H
    as [_ (p & b & l & m & Hl & Ht & _ & Hdp & Hne & _ & Hd & _)].
  exists p, b, l. split_and!; [done..| | |].
  - intros n. unfold read_file; cbn [fst snd]. rewrite Hd, lookup_insert_eq. cbn.
    rewrite lookup_union.
    destruct (staged_files C b !! n) as [x|]; cbn.
    + by destruct (default ∅ (dirs w !! local_path (new_artifact_uri ch)) !! n).
    + destruct (dirs w !! local_path (new_artifact_uri ch)) as [old|]; cbn.
      * by destruct (old !! n).
      * by rewrite lookup_empty.
  - intros d n Hdn. unfold read_file; cbn [fst snd]. by rewrite Hd, lookup_insert_ne.
  - by rewrite Hd, lookup_insert_ne.
Qed.
End train_model_files.

(** ** The directory of a run *)

Lemma append_String c (s t : string) : String c s +:+ t = String c (s +:+ t).
Proof. reflexivity. Qed.

Lemma append_empty_l (s : string) : "" +:+ s = s.
Proof. reflexivity. Qed.

Lemma append_empty_r (s : string) : s +:+ "" = s.
Proof. induction s as [|c s IH]; [done|]. by rewrite append_String, IH. Qed.

Lemma append_assoc (a b c : string) : (a +:+ b) +:+ c = a +:+ (b +:+ c).
Proof. induction a as [|x a IH]; [done|]. by rewrite !append_String, IH. Qed.

Lemma split_from_free sep piece s :
  free_of sep s = true → split_from sep 0 piece s = [piece +:+ s].
Proof.
  revert piece. induction s as [|c s IH]; intros piece; cbn [free_of split_from].
  - intros _. by rewrite append_empty_r.
  - rewrite andb_true_iff, negb_true_iff. intros [-> Hs].
    rewrite IH by done. by rewrite append_assoc.
Qed.

Lemma split_from_skip sep piece a b :
  split_from sep (String.length a) piece (a +:+ b) = split_from sep 0 piece b.
Proof.
  induction a as [|c a IH]; [done|].
  rewrite append_String. cbn [String.length split_from]. apply IH.
Qed.

Lemma prefix_append (a b : string) : String.prefix a (a +:+ b) = true.
Proof.
  induction a as [|c a IH]; [by destruct b|].
  rewrite append_String. cbn [String.prefix].
  destruct (Ascii.ascii_dec c c); [done|congruence].
Qed.

Lemma py_split_prefixed c sep p :
  free_of (String c sep) p = true →
  py_split (String c sep +:+ p) (String c sep) = [""; p].
Proof.
  intros Hp. unfold py_split. rewrite append_String. cbn [split_from].
  rewrite <-append_String, prefix_append.
  replace (String.length (String c sep) - 1) with (String.length sep)
    by (cbn [String.length]; lia).
  by rewrite split_from_skip, split_from_free.
Qed.

Lemma substring_all (s : string) : String.substring 0 (String.length s) s = s.
Proof. induction s as [|c s IH]; [done|]. cbn [String.length String.substring]. by rewrite IH. Qed.

Lemma local_path_file p : local_path ("file://" +:+ p) = p.
Proof.
  unfold local_path. rewrite prefix_append.
  rewrite !append_String, append_empty_l.
  cbn [String.length Nat.sub String.substring]. rewrite Nat.sub_0_r. apply substring_all.
Qed.

Lemma free_of_not_prefix sep s : free_of sep s = true → String.prefix sep s = false.
Proof. destruct s; cbn [free_of]; rewrite andb_true_iff, negb_true_iff; tauto. Qed.

(** X8: The directory [load_artifacts] reads from is the one the tracking
    store keeps the artifacts in, for a [file://] URI as well as for a
    plain path, as long as the path does not contain [file://] itself. *)
Theorem artifact_directory_agrees p :
  free_of "file://" p = true →
  (last_piece (py_split ("file://" +:+ p) "file://") = p ∧
   local_path ("file://" +:+ p) = p) ∧
  (last_piece (py_split p "file://") = p ∧ local_path p = p).
Proof.
  intros Hp. split_and!.
  - by rewrite py_split_prefixed.
  - apply local_path_file.
  - unfold py_split. by rewrite split_from_free.
  - unfold local_path. by rewrite free_of_not_prefix.
Qed.

Lemma artifact_directory_agrees_witness :
  (last_piece (py_split ("file://" +:+ "/mlruns/0/run1/artifacts") "file://")
   = "/mlruns/0/run1/artifacts" ∧
   local_path ("file://" +:+ "/mlruns/0/run1/artifacts") = "/mlruns/0/run1/artifacts") ∧
  (last_piece (py_split "/mlruns/0/run1/artifacts" "file://")
   = "/mlruns/0/run1/artifacts" ∧
   local_path "/mlruns/0/run1/artifacts" = "/mlruns/0/run1/artifacts").
Proof. apply (artifact_directory_agrees "/mlruns/0/run1/artifacts"). reflexivity. Defined.

(** ** [train_model] followed by [load_artifacts] *)

Section train_model_load.
Context {blob : Type} (C : codecs blob).
Context (train_train : dict → result (bundle * Qc)).
Implicit Types w : @world blob.

Lemma staged_files_lookup b :
  staged_files C b !! "params.json" = Some (save_dict C (b_params b)) ∧
  staged_files C b !! "performance.json" = Some (save_dict C (b_performance b)) ∧
  staged_files C b !! "label_encoder.json"
    = Some (save_label_encoder C (b_label_encoder b)) ∧
  staged_files C b !! "tokenizer.json" = Some (save_tokenizer C (b_tokenizer b)) ∧
  staged_files C b !! "model.pt" = Some (torch_save C (state_dict (b_model b))).
Proof.
  unfold staged_files. split_and!.
  - rewrite !lookup_insert_ne by done. apply lookup_insert_eq.
  - rewrite !lookup_insert_ne by done. apply lookup_insert_eq.
  - rewrite !lookup_insert_ne by done. apply lookup_insert_eq.
  - rewrite lookup_insert_ne by done. apply lookup_insert_eq.
  - apply lookup_insert_eq.
Qed.

Lemma read_published (ds : gmap string (gmap string blob)) dest b old n x w :
  dirs w = <[dest := staged_files C b ∪ old]> ds →
  staged_files C b !! n = Some x →
  read_file w (dest, n) = Some x.
Proof.
  intros Hd Hn. unfold read_file; cbn [fst snd]. rewrite Hd, lookup_insert_eq. cbn.
  by rewrite lookup_union, Hn, union_Some_l.
Qed.

(** X5: Loading the run that [train_model] has just recorded gives back the
    components it wrote, when the readers invert the writers and the
    loader and the store agree on the directory of the run. *)
Theorem train_model_then_load ch params_fp experiment_name run_name w :
  let out := train_model C train_train ch params_fp experiment_name run_name w in
  codecs_inverse C →
  last_piece (py_split (new_artifact_uri ch) "file://")
    = local_path (new_artifact_uri ch) →
  out.1 = Ok () →
  ∃ params b loss,
    utils_load_dict C params_fp w = Ok params ∧
    train_train params = Ok (b, loss) ∧
    load_artifacts_from C (new_run_id ch) out.2
    = Ok (Bundle (b_params b) (b_label_encoder b) (b_tokenizer b)
            (Model (length (b_tokenizer b)) (length (b_label_encoder b))
                   (state_dict (b_model b)))
            (b_performance b)).
Proof.
  intros out (Hdict & Hlabels & Htokens & Htorch) Hdir. subst out.
  destruct (train_model C train_train ch params_fp experiment_name run_name w)
    as [res w'] eqn:H. cbn [fst snd]. intros ->.
  apply train_model_outcome in H
    as [_ (p & b & l & m & Hl & Ht & _ & _ & _ & _ & Hd & _ & Htr)].
  exists p, b, l. split_and!; [done..|].
  destruct (staged_files_lookup b) as (H1 & H2 & H3 & H4 & H5).
  unfold load_artifacts_from, get_run.
  rewrite Htr, !lookup_alter_eq, lookup_insert_eq. cbn [fmap option_fmap option_map mbind].
  unfold mbind, result_bind, bind. cbn [artifact_uri set_status add_params add_metrics add_tags].
  rewrite Hdir. unfold read_bundle, utils_load_dict. cbn [fst snd].
  rewrite (read_published _ _ _ _ _ _ _ Hd H1), (read_published _ _ _ _ _ _ _ Hd H2),
    (read_published _ _ _ _ _ _ _ Hd H3), (read_published _ _ _ _ _ _ _ Hd H4),
    (read_published _ _ _ _ _ _ _ Hd H5).
  unfold mbind, result_bind, bind. rewrite !Hdict, Hlabels, Htokens, Htorch. done.
Qed.

(** X6: The run [train_model] records: finished, with the metrics computed
    from the performance report and the parameters of the bundle, when it
    returns; failed when an exception leaves the run.  No run is active
    afterwards. *)
Theorem train_model_run_record ch params_fp experiment_name run_name w params :
  let out := train_model C train_train ch params_fp experiment_name run_name w in
  utils_load_dict C params_fp w = Ok params →
  active_run out.2 = None ∧
  ∃ r, tracking out.2 !! new_run_id ch = Some r ∧
       artifact_uri r = new_artifact_uri ch ∧
       match out.1 with
       | Ok _ =>
           status r = "FINISHED" ∧
           run_name_of r = run_name ∧ experiment_of r = experiment_name ∧
           ∃ b loss, train_train params = Ok (b, loss) ∧
                     run_metrics (b_performance b) loss = Ok (metrics r) ∧
                     logged_params r = b_params b
       | Err _ => status r = "FAILED"
       end.
Proof.
  intros out Hload. subst out.
  destruct (train_model C train_train ch params_fp experiment_name run_name w)
    as [res w'] eqn:H. cbn [fst snd].
  apply train_model_outcome in H as [_ H]. destruct res as [[]|e].
  - destruct H as (p & b & l & m & Hl & Ht & Hm & _ & _ & _ & _ & Ha & Htr).
    assert (p = params) as -> by congruence.
    split; [done|]. eexists. split.
    { rewrite Htr, !lookup_alter_eq, lookup_insert_eq. reflexivity. }
    cbn. split_and!; try done.
    exists b, l. split_and!; [done| |].
    + by rewrite (right_id_L ∅ (∪)).
    + by rewrite (right_id_L ∅ (∪)).
  - destruct H as [[He _]|(_ & _ & Ha & r & Hr & Hu & Hs)]; [congruence|].
    split; [done|]. by exists r.
Qed.
End train_model_load.

Lemma train_model_failure_keeps_files_witness :
  read_file (train_model typed_files sample_train sample_choices sample_params_fp
               "best" "model" broken_world).2 sample_params_fp
  = read_file broken_world sample_params_fp.
Proof.
  eapply (train_model_failure_keeps_files typed_files sample_train sample_choices
            sample_params_fp "best" "model" broken_world).
  vm_compute. reflexivity.
Defined.

Lemma train_model_interrupted_write_witness :
  ∃ e, (train_model typed_files sample_train sample_choices sample_params_fp
          "best" "model" broken_world).1 = Err e ∧
       ∀ n, read_file (train_model typed_files sample_train sample_choices
                         sample_params_fp "best" "model" broken_world).2
              (local_path (new_artifact_uri sample_choices), n)
            = read_file broken_world (local_path (new_artifact_uri sample_choices), n).
Proof.
  apply (train_model_interrupted_write typed_files sample_train sample_choices
           sample_params_fp "best" "model" broken_world).
  unfold component_files. rewrite !Exists_cons. do 4 right. left.
  vm_compute. reflexivity.
Defined.

Lemma train_model_publishes_witness :
  ∃ params b loss,
    utils_load_dict typed_files sample_params_fp sample_world = Ok params ∧
    sample_train params = Ok (b, loss) ∧
    (∀ n, read_file (train_model typed_files sample_train sample_choices
                       sample_params_fp "best" "model" sample_world).2
            (local_path (new_artifact_uri sample_choices), n)
          = match staged_files typed_files b !! n with
            | Some x => Some x
            | None => read_file sample_world (local_path (new_artifact_uri sample_choices), n)
            end) ∧
    (∀ d n, d ≠ local_path (new_artifact_uri sample_choices) →
       read_file (train_model typed_files sample_train sample_choices
                    sample_params_fp "best" "model" sample_world).2 (d, n)
       = read_file sample_world (d, n)) ∧
    dirs (train_model typed_files sample_train sample_choices
            sample_params_fp "best" "model" sample_world).2
      !! new_tmp_dir sample_choices = None.
Proof.
  apply (train_model_publishes typed_files sample_train sample_choices
           sample_params_fp "best" "model" sample_world).
  vm_compute. reflexivity.
Defined.

Lemma typed_files_inverse : codecs_inverse typed_files.
Proof. by split_and!. Qed.

Lemma train_model_then_load_witness :
  ∃ params b loss,
    utils_load_dict typed_files sample_params_fp sample_world = Ok params ∧
    sample_train params = Ok (b, loss) ∧
    load_artifacts_from typed_files (new_run_id sample_choices)
      (train_model typed_files sample_train sample_choices
         sample_params_fp "best" "model" sample_world).2
    = Ok (Bundle (b_params b) (b_label_encoder b) (b_tokenizer b)
            (Model (length (b_tokenizer b)) (length (b_label_encoder b))
                   (state_dict (b_model b)))
            (b_performance b)).
Proof.
  apply (train_model_then_load typed_files sample_train sample_choices
           sample_params_fp "best" "model" sample_world).
  - by split_and!.
  - vm_compute. reflexivity.
  - vm_compute. reflexivity.
Defined.

Lemma train_model_run_record_witness :
  active_run (train_model typed_files sample_train sample_choices
                sample_params_fp "best" "model" broken_world).2 = None ∧
  ∃ r, tracking (train_model typed_files sample_train sample_choices
                   sample_params_fp "best" "model" broken_world).2
         !! new_run_id sample_choices = Some r ∧
       artifact_uri r = new_artifact_uri sample_choices ∧
       match (train_model typed_files sample_train sample_choices
                sample_params_fp "best" "model" broken_world).1 with
       | Ok _ =>
           status r = "FINISHED" ∧
           run_name_of r = "model" ∧ experiment_of r = "best" ∧
           ∃ b loss, sample_train sample_base = Ok (b, loss) ∧
                     run_metrics (b_performance b) loss = Ok (metrics r) ∧
                     logged_params r = b_params b
       | Err _ => status r = "FAILED"
       end.
Proof.
  apply (train_model_run_record typed_files sample_train sample_choices
           sample_params_fp "best" "model" broken_world sample_base).
  reflexivity.
Defined.

(** ** [optimize]: what it touches *)

Section optimize_effects.
Context {blob : Type} (C : codecs blob).
Implicit Types w : @world blob.

Lemma write_file_effect p b w res w' :
  write_file p b w = (res, w') →
  tracking w' = tracking w ∧ trial_metrics w' = trial_metrics w ∧
  (∀ q, q ≠ p → read_file w' q = read_file w q) ∧
  match res with
  | Ok _ => read_file w' p = Some b
  | Err _ => w' = w
  end.
Proof.
  unfold write_file. destruct (decide (p ∈ faulty w)); [by intros [= <- <-]|].
  destruct (dirs w !! p.1) as [files|] eqn:Hd; [|by intros [= <- <-]].
  intros [= <- <-]. split_and!; [done..| |].
  - intros q Hq. unfold read_file; cbn. destruct (decide (p.1 = q.1)) as [Heq|Hne].
    + rewrite <-Heq, lookup_insert_eq, Hd. cbn.
      apply lookup_insert_ne. destruct p, q; cbn in *; congruence.
    + by rewrite lookup_insert_ne.
  - unfold read_file; cbn. rewrite lookup_insert_eq. cbn. apply lookup_insert_eq.
Qed.

Lemma optimize_effect objective params_fp study_name num_trials w :
  let out := optimize C objective params_fp study_name num_trials w in
  (∀ p, p ≠ params_fp → read_file out.2 p = read_file w p) ∧
  match out.1 with
  | Ok merged => read_file out.2 params_fp = Some (save_dict C merged)
  | Err _ => read_file out.2 params_fp = read_file w params_fp
  end.
Proof.
  intros out. subst out.
  destruct (optimize C objective params_fp study_name num_trials w) as [res w'] eqn:H.
  cbn [fst snd]. unfold optimize in H.
  apply bind_inv in H as [(e & H & ->) | (base & wa & Ha & H)].
  { by injection H as _ <-. }
  injection Ha as _ <-.
  apply bind_inv in H as [(e & H & ->) | (study & wb & Hb & H)].
  { unfold run_study in H.
    destruct (study_optimize objective num_trials []) as [st [e'|]];
      injection H as _ <-; done. }
  assert (∀ p, read_file wb p = read_file w p) as Hr.
  { unfold run_study in Hb.
    destruct (study_optimize objective num_trials []) as [st [e'|]];
      injection Hb as _ <-; done. }
  apply bind_inv in H as [(e & H & ->) | (trials_df & wb' & Hdf & H)].
  { apply lift_inv in H as [_ ->]. split; intros; apply Hr. }
  apply lift_inv in Hdf as [_ ->].
  apply bind_inv in H as [(e & H & ->) | (best & wc & Hc & H)].
  { apply lift_inv in H as [_ ->]. split; intros; apply Hr. }
  apply lift_inv in Hc as [_ ->].
  apply bind_inv in H as [(e & H & ->) | ([] & wd & Hd & H)]; [discriminate|].
  injection Hd as <-.
  apply bind_inv in H as [(e & H & ->) | (merged & we & He & H)].
  { apply lift_inv in H as [_ ->]. split; intros; apply Hr. }
  apply lift_inv in He as [_ ->].
  apply bind_inv in H as [(e & H & ->) | ([] & wf & Hf & H)].
  { apply write_file_effect in H as (_ & _ & Hother & ->).
    split; intros; apply Hr. }
  apply write_file_effect in Hf as (_ & _ & Hother & Hp).
  apply bind_inv in H as [(e & H & ->) | ([] & wg & Hg & H)]; [discriminate|].
  injection Hg as <-. injection H as <- <-.
  split.
  - intros p Hne. change (read_file wf p = read_file w p).
    rewrite (Hother p Hne). apply Hr.
  - exact Hp.
Qed.

(** X11: Whatever [optimize] does, it touches no file other than the
    parameter file, and it leaves that one as it was unless it
    returns. *)
Theorem optimize_touches_only_params_file objective params_fp study_name
    num_trials w :
  let out := optimize C objective params_fp study_name num_trials w in
  (∀ p, p ≠ params_fp → read_file out.2 p = read_file w p) ∧
  match out.1 with
  | Ok merged => read_file out.2 params_fp = Some (save_dict C merged)
  | Err _ => read_file out.2 params_fp = read_file w params_fp
  end.
Proof.
  intros out.
  destruct (optimize_effect objective params_fp study_name num_trials w) as [Hother Hfile].
  split; [exact Hother | exact Hfile].
Qed.

(** X12: The parameters [optimize] returns are the ones the next command
    reads from the parameter file, when the reader inverts the writer. *)
Theorem optimize_then_load_params objective params_fp study_name num_trials w merged :
  let out := optimize C objective params_fp study_name num_trials w in
  codecs_inverse C →
  out.1 = Ok merged →
  utils_load_dict C params_fp out.2 = Ok merged.
Proof.
  intros out [Hdict _] Hok.
  destruct (optimize_effect objective params_fp study_name num_trials w) as (_ & H).
  fold out in H. rewrite Hok in H. unfold utils_load_dict. by rewrite H.
Qed.
End optimize_effects.

(** ** [optimize]: edges *)

Section optimize_edges.
Context {blob : Type} (C : codecs blob).
Implicit Types w : @world blob.

Lemma filter_none_failed study :
  none_failed study → filter (λ t, state t ≠ FAIL) study = study.
Proof.
  induction 1 as [|t l Ht _ IH]; [done|].
  rewrite filter_cons, decide_True by done. by rewrite IH.
Qed.


(** X13: A best trial without a [threshold] user attribute makes [optimize]
    fail with [KeyError] after the whole search has run, and the
    parameter file keeps its content. *)
Theorem optimize_missing_threshold objective params_fp study_name num_trials w
    base study best :
  let out := optimize C objective params_fp study_name num_trials w in
  utils_load_dict C params_fp w = Ok base →
  study_optimize objective num_trials [] = (study, None) →
  best_trial study = Ok best →
  user_attrs best !! "threshold" = None →
  out.1 = Err (KeyError "threshold") ∧ dirs out.2 = dirs w ∧
  length study = num_trials.
Proof.
  intros out Hload Hstudy Hbest Hattr. subst out.
  pose proof (study_optimize_outcome objective num_trials [] (Forall_nil_2 _)) as Hout.
  rewrite Hstudy in Hout. destruct Hout as [_ Hlen].
  assert (∃ df, sorted_trials study = Ok df) as [df Hdf].
  { destruct study; [discriminate|]. unfold sorted_trials. eauto. }
  unfold optimize, mbind, M_bind, reading, run_study, lift, merge_best, getitem.
  rewrite Hload, Hstudy, Hdf, Hbest. cbn [logger_info update]. unfold logger_info, update.
  unfold mbind, result_bind, bind. rewrite Hattr. done.
Qed.

(** X14: A search that completes has run exactly [num_trials] trials, numbered
    from 0 in the order they ran, and the callback has logged each of
    them once, in that order, under the name of the study. *)
Theorem optimize_logs_each_trial objective params_fp study_name num_trials w merged :
  let out := optimize C objective params_fp study_name num_trials w in
  out.1 = Ok merged →
  ∃ study,
    study_optimize objective num_trials [] = (study, None) ∧
    length study = num_trials ∧
    number <$> study = seq 0 num_trials ∧
    trial_metrics out.2
    = trial_metrics w ++ ((λ t, (study_name, number t, value t)) <$> study).
Proof.
  intros out. subst out.
  destruct (optimize C objective params_fp study_name num_trials w) as [res w'] eqn:H.
  cbn [fst snd]. intros ->. unfold optimize in H.
  apply bind_ok in H as (base & wa & Ha & H). apply reading_ok in Ha as [_ ->].
  apply bind_ok in H as (study & wb & Hb & H).
  pose proof (study_optimize_outcome objective num_trials [] (Forall_nil_2 _)) as Hout.
  pose proof (study_optimize_numbered objective num_trials []) as Hnum.
  unfold run_study in Hb.
  destruct (study_optimize objective num_trials []) as [st [e|]]; [discriminate|].
  injection Hb as <- <-. destruct Hout as [Hnf Hlen]. cbn in Hlen.
  specialize (Hnum ltac:(intros i t Hi; by rewrite lookup_nil in Hi)). cbn in Hnum.
  apply bind_ok in H as (trials_df & wb' & Hdf & H). apply lift_ok in Hdf as [_ ->].
  apply bind_ok in H as (best & wc & Hc & H). apply lift_ok in Hc as [_ ->].
  apply bind_ok in H as ([] & wd & Hd & H). apply update_ok in Hd as ->.
  apply bind_ok in H as (m & we & He & H). apply lift_ok in He as [_ ->].
  apply bind_ok in H as ([] & wf & Hf & H).
  apply bind_ok in H as ([] & wg & Hg & H). apply update_ok in Hg as ->.
  injection H as _ <-.
  unfold utils_save_dict in Hf. apply write_file_effect in Hf as (_ & Htm & _).
  exists st. split_and!; [done..| |].
  - apply list_eq. intros i. rewrite list_lookup_fmap.
    destruct (st !! i) as [t|] eqn:Hi; cbn.
    + rewrite (Hnum i t Hi). symmetry. apply lookup_seq.
      split; [done|]. apply lookup_lt_Some in Hi. lia.
    + symmetry. apply lookup_seq_ge. apply lookup_ge_None in Hi. lia.
  - cbn. rewrite Htm. cbn. unfold mlflow_callback. by rewrite filter_none_failed.
Qed.
End optimize_edges.

Lemma optimize_missing_threshold_witness :
  (optimize typed_files bare_objective sample_params_fp "optimization" 2 sample_world).1
  = Err (KeyError "threshold") ∧
  dirs (optimize typed_files bare_objective sample_params_fp "optimization" 2
          sample_world).2 = dirs sample_world ∧
  length (study_optimize bare_objective 2 []).1 = 2.
Proof.
  eapply (optimize_missing_threshold typed_files bare_objective sample_params_fp
            "optimization" 2 sample_world).
  - reflexivity.
  - reflexivity.
  - vm_compute. reflexivity.
  - reflexivity.
Defined.

Lemma optimize_logs_each_trial_witness :
  ∃ study,
    study_optimize sample_objective 3 [] = (study, None) ∧
    length study = 3 ∧
    number <$> study = seq 0 3 ∧
    trial_metrics (optimize typed_files sample_objective sample_params_fp
                     "optimization" 3 sample_world).2
    = trial_metrics sample_world
      ++ ((λ t, ("optimization", number t, value t)) <$> study).
Proof.
  eapply (optimize_logs_each_trial typed_files sample_objective sample_params_fp
            "optimization" 3 sample_world).
  vm_compute. reflexivity.
Defined.

(** ** [load_artifacts] and [diff]: failures *)

Section load_artifacts_props.
Context {blob : Type} (C : codecs blob).
Implicit Types w : @world blob.

Lemma read_bundle_cases d w :
  match read_bundle C d w with
  | Ok b =>
      utils_load_dict C (d, "params.json") w = Ok (b_params b) ∧
      load_label_encoder C "label_encoder.json" (read_file w (d, "label_encoder.json"))
        = Ok (b_label_encoder b) ∧
      load_tokenizer C "tokenizer.json" (read_file w (d, "tokenizer.json"))
        = Ok (b_tokenizer b) ∧
      torch_load C "model.pt" (read_file w (d, "model.pt")) = Ok (state_dict (b_model b)) ∧
      utils_load_dict C (d, "performance.json") w = Ok (b_performance b) ∧
      vocab_size (b_model b) = length (b_tokenizer b) ∧
      num_classes (b_model b) = length (b_label_encoder b)
  | Err e => first_error (component_reads C d w) = Some e
  end.
Proof.
  unfold read_bundle, component_reads, mbind, result_bind, bind.
  destruct (utils_load_dict C (d, "params.json") w); [|done].
  destruct (load_label_encoder C _ _); [|done].
  destruct (load_tokenizer C _ _); [|done].
  destruct (torch_load C _ _); [|done].
  destruct (utils_load_dict C (d, "performance.json") w); done.
Qed.

(** X9: A bundle returned by [load_artifacts] consists of what the five
    readers returned for the files of the run's directory, and its model
    has the size of the tokenizer and of the label encoder and the loaded
    weights. *)
Theorem load_artifacts_returns_the_reads run_id w b :
  load_artifacts_from C run_id w = Ok b →
  ∃ r, tracking w !! run_id = Some r ∧
    let d := last_piece (py_split (artifact_uri r) "file://") in
    utils_load_dict C (d, "params.json") w = Ok (b_params b) ∧
    load_label_encoder C "label_encoder.json" (read_file w (d, "label_encoder.json"))
      = Ok (b_label_encoder b) ∧
    load_tokenizer C "tokenizer.json" (read_file w (d, "tokenizer.json"))
      = Ok (b_tokenizer b) ∧
    torch_load C "model.pt" (read_file w (d, "model.pt")) = Ok (state_dict (b_model b)) ∧
    utils_load_dict C (d, "performance.json") w = Ok (b_performance b) ∧
    vocab_size (b_model b) = length (b_tokenizer b) ∧
    num_classes (b_model b) = length (b_label_encoder b).
Proof.
  unfold load_artifacts_from, get_run, mbind, result_bind, bind.
  destruct (tracking w !! run_id) as [r|]; [|discriminate].
  intros H. exists r. split; [done|]. cbn zeta.
  pose proof (read_bundle_cases (last_piece (py_split (artifact_uri r) "file://")) w) as Hc.
  by rewrite H in Hc.
Qed.

(** X10: When the run is unknown or one of the five reads fails,
    [load_artifacts] fails with the error of the first of them in the
    order: run, parameters, label encoder, tokenizer, weights, performance
    report. *)
Theorem load_artifacts_first_failure run_id w e :
  match tracking w !! run_id with
  | None => get_run run_id w = Err e
  | Some r =>
      first_error
        (component_reads C (last_piece (py_split (artifact_uri r) "file://")) w)
      = Some e
  end →
  load_artifacts_from C run_id w = Err e.
Proof.
  unfold load_artifacts_from, get_run, mbind, result_bind, bind.
  destruct (tracking w !! run_id) as [r|].
  2: { by intros [= <-]. }
  pose proof (read_bundle_cases (last_piece (py_split (artifact_uri r) "file://")) w) as Hc.
  destruct (read_bundle C _ w) as [b|e'].
  - intros He. exfalso.
    destruct Hc as (H1 & H2 & H3 & H4 & H5 & _).
    unfold component_reads in He. rewrite H1, H2, H3, H4, H5 in He. discriminate.
  - rewrite Hc. congruence.
Qed.
End load_artifacts_props.

Section diff_props.
Context {blob : Type} (C : codecs blob).
Context (load_json_from_url : string → result (list json)).
Implicit Types w : @world blob.

(** X15: [diff] never returns a comparison: it ends with the error of
    resolving the tag of side B, or, once the comparison is announced, with
    the [TypeError] of its first call of [params], which has no parameter
    [author].  It changes no file and no run. *)
Theorem diff_never_compares author repo tag_a tag_b w :
  let out := diff C load_json_from_url author repo tag_a tag_b w in
  (∃ e, out.1 = Err e ∧
        (resolve_tag_b load_json_from_url author repo tag_b = Err e ∨
         e = TypeError "params() got an unexpected keyword argument 'author'")) ∧
  dirs out.2 = dirs w ∧ tracking out.2 = tracking w ∧
  length (logged out.2) ≤ S (length (logged w)).
Proof.
  intros out. subst out. rewrite diff_outcome.
  destruct (resolve_tag_b load_json_from_url author repo tag_b) as [tag|e]; cbn.
  - split; [eauto|]. split_and!; [done..|]. rewrite length_app. cbn. lia.
  - split; [eauto|]. split_and!; [done..|]. lia.
Qed.
End diff_props.

Lemma load_artifacts_returns_the_reads_witness :
  ∃ r, tracking (train_model typed_files sample_train sample_choices
                   sample_params_fp "best" "model" sample_world).2 !! "run1" = Some r ∧
    let w := (train_model typed_files sample_train sample_choices
                sample_params_fp "best" "model" sample_world).2 in
    let b := Bundle sample_base ["cv"; "nlp"] ["<PAD>"; "a"; "b"]
               (Model 3 2 [1; 2; 3; 4; 5; 6]%Z) sample_performance in
    let d := last_piece (py_split (artifact_uri r) "file://") in
    utils_load_dict typed_files (d, "params.json") w = Ok (b_params b) ∧
    load_label_encoder typed_files "label_encoder.json"
      (read_file w (d, "label_encoder.json")) = Ok (b_label_encoder b) ∧
    load_tokenizer typed_files "tokenizer.json" (read_file w (d, "tokenizer.json"))
      = Ok (b_tokenizer b) ∧
    torch_load typed_files "model.pt" (read_file w (d, "model.pt"))
      = Ok (state_dict (b_model b)) ∧
    utils_load_dict typed_files (d, "performance.json") w = Ok (b_performance b) ∧
    vocab_size (b_model b) = length (b_tokenizer b) ∧
    num_classes (b_model b) = length (b_label_encoder b).
Proof.
  apply (load_artifacts_returns_the_reads typed_files "run1"
           (train_model typed_files sample_train sample_choices
              sample_params_fp "best" "model" sample_world).2).
  vm_compute. reflexivity.
Defined.

(** ** The metrics of a run *)

(** X7: The metrics [train_model] logs have exactly the six names
    [precision], [recall], [f1], [best_val_loss], [behavioral_score] and
    [slices_f1], with the values found in the performance report and the
    loss of the training. *)
Theorem run_metrics_keys performance loss m :
  run_metrics performance loss = Ok m →
  dom m = list_to_set ["precision"; "recall"; "f1"; "best_val_loss";
                       "behavioral_score"; "slices_f1"] ∧
  m !! "best_val_loss" = Some (JLeaf (SNum loss)) ∧
  ∃ overall behavioral slices slices_overall,
    performance !! "overall" = Some overall ∧
    performance !! "behavioral" = Some behavioral ∧
    performance !! "slices" = Some slices ∧
    subscript slices "overall" = Ok slices_overall ∧
    subscript overall "precision" = getitem m "precision" ∧
    subscript overall "recall" = getitem m "recall" ∧
    subscript overall "f1" = getitem m "f1" ∧
    subscript behavioral "score" = getitem m "behavioral_score" ∧
    subscript slices_overall "f1" = getitem m "slices_f1".
Proof.
  unfold run_metrics, mbind, result_bind, bind, getitem at 1 2 3.
  destruct (performance !! "overall") as [overall|]; [|discriminate].
  destruct (subscript overall "precision") as [precision|] eqn:Hp; [|discriminate].
  destruct (subscript overall "recall") as [recall|] eqn:Hr; [|discriminate].
  destruct (subscript overall "f1") as [f1|] eqn:Hf; [|discriminate].
  destruct (performance !! "behavioral") as [behavioral|]; [|discriminate].
  destruct (subscript behavioral "score") as [score|] eqn:Hs; [|discriminate].
  destruct (performance !! "slices") as [slices|]; [|discriminate].
  destruct (subscript slices "overall") as [so|] eqn:Hso; [|discriminate].
  destruct (subscript so "f1") as [sf1|] eqn:Hsf; [|discriminate].
  intros [= <-]. split_and!.
  - rewrite !dom_insert_L, dom_singleton_L. cbn [list_to_set foldr]. set_solver.
  - rewrite !lookup_insert_ne by done. apply lookup_insert_eq.
  - exists overall, behavioral, slices, so. unfold getitem.
    rewrite lookup_insert_eq.
    rewrite (lookup_insert_ne _ "precision" "recall"), lookup_insert_eq by done.
    rewrite !(lookup_insert_ne _ _ "f1") by done. rewrite lookup_insert_eq.
    rewrite !(lookup_insert_ne _ _ "behavioral_score") by done. rewrite lookup_insert_eq.
    rewrite !(lookup_insert_ne _ _ "slices_f1") by done. rewrite lookup_singleton_eq.
    done.
Qed.

Lemma run_metrics_keys_witness :
  dom (<["precision" := num (8 # 10)]>
      (<["recall" := num (7 # 10)]>
      (<["f1" := num (75 # 100)]>
      (<["best_val_loss" := JLeaf (SNum (Q2Qc (1 # 4)))]>
      (<["behavioral_score" := num 1]>
      ({["slices_f1" := num (6 # 10)]} : dict))))))
  = list_to_set ["precision"; "recall"; "f1"; "best_val_loss";
                 "behavioral_score"; "slices_f1"].
Proof.
  eapply (run_metrics_keys sample_performance (Q2Qc (1 # 4))).
  vm_compute. reflexivity.
Defined.

Lemma optimize_then_load_params_witness :
  utils_load_dict typed_files sample_params_fp
    (optimize typed_files sample_objective sample_params_fp "optimization" 3
       sample_world).2
  = Ok (<["threshold" := num (6 # 10)]> (<["lr" := num (3 # 10)]> sample_base)).
Proof.
  apply (optimize_then_load_params typed_files sample_objective sample_params_fp
           "optimization" 3 sample_world).
  - by split_and!.
  - vm_compute. reflexivity.
Defined.

Section failed_run.
Context {blob : Type} (C : codecs blob).
Context (train_train : dict → result (bundle * Qc)).
Implicit Types w : @world blob.

(** X4: After a failing [train_model] whose run was given a new directory,
    [load_artifacts] finds no bundle for that run: it fails on the first
    file it asks for, with the error of the reader that is given no
    file. *)
Theorem train_model_failure_not_loadable ch params_fp experiment_name run_name w
    params e missing :
  let out := train_model C train_train ch params_fp experiment_name run_name w in
  utils_load_dict C params_fp w = Ok params →
  dirs w !! local_path (new_artifact_uri ch) = None →
  last_piece (py_split (new_artifact_uri ch) "file://")
    = local_path (new_artifact_uri ch) →
  load_dict C "params.json" None = Err missing →
  out.1 = Err e →
  load_artifacts_from C (new_run_id ch) out.2 = Err missing.
Proof.
  intros out Hload Hnew Hdir Hmissing. subst out.
  destruct (train_model C train_train ch params_fp experiment_name run_name w)
    as [res w'] eqn:H. cbn [fst snd]. intros ->.
  apply train_model_outcome in H as [_ [[He _]|(_ & Hd & _ & r & Hr & Hu & _)]];
    [congruence|].
  unfold load_artifacts_from, get_run. rewrite Hr.
  unfold mbind, result_bind, bind. rewrite Hu, Hdir.
  unfold read_bundle, utils_load_dict, read_file. cbn [fst snd].
  rewrite Hd. unfold make_dir. rewrite Hnew, lookup_insert_eq. cbn.
  rewrite !lookup_empty, Hmissing. done.
Qed.
End failed_run.

Lemma train_model_failure_not_loadable_witness :
  load_artifacts_from typed_files (new_run_id sample_choices)
    (train_model typed_files sample_train sample_choices sample_params_fp
       "best" "model" broken_world).2
  = Err (ArtifactCorruptionError "params.json").
Proof.
  eapply (train_model_failure_not_loadable typed_files sample_train sample_choices
            sample_params_fp "best" "model" broken_world sample_base).
  - reflexivity.
  - vm_compute. reflexivity.
  - vm_compute. reflexivity.
  - reflexivity.
  - vm_compute. reflexivity.
Defined.

Lemma load_artifacts_first_failure_witness :
  load_artifacts_from typed_files "run1" weights_deleted_world
  = Err (ArtifactCorruptionError "model.pt").
Proof.
  apply (load_artifacts_first_failure typed_files "run1" weights_deleted_world).
  vm_compute. reflexivity.
Defined.

(** ** The written bundle read back *)

Section bundle_codec.
Context {blob : Type} (C : codecs blob).
Implicit Types w : @world blob.

Lemma write_file_read p b w u w' :
  write_file p b w = (Ok u, w') →
  read_file w' p = Some b ∧ ∀ q, q ≠ p → read_file w' q = read_file w q.
Proof.
  intros H. apply write_file_effect in H as (_ & _ & Hother & Hp). done.
Qed.

(** C4: reading back the directory into which a bundle was written gives
    the bundle component by component, when the readers invert the
    writers: the parameters, the label encoder, the tokenizer, the weights
    of the model and the performance report are the ones written. *)
Theorem bundle_round_trip b d w :
  let out := stage_bundle C b d w in
  codecs_inverse C →
  out.1 = Ok () →
  ∃ b', read_bundle C d out.2 = Ok b' ∧
        b_params b' = b_params b ∧
        b_label_encoder b' = b_label_encoder b ∧
        b_tokenizer b' = b_tokenizer b ∧
        state_dict (b_model b') = state_dict (b_model b) ∧
        b_performance b' = b_performance b.
Proof.
  intros out (Hdict & Hlabels & Htokens & Htorch). subst out.
  destruct (stage_bundle C b d w) as [res w'] eqn:H. cbn [fst snd]. intros ->.
  unfold stage_bundle, utils_save_dict in H.
  apply bind_ok in H as ([] & w1 & H1 & H). apply write_file_read in H1 as [R1 F1].
  apply bind_ok in H as ([] & w2 & H2 & H). apply write_file_read in H2 as [R2 F2].
  apply bind_ok in H as ([] & w3 & H3 & H). apply write_file_read in H3 as [R3 F3].
  apply bind_ok in H as ([] & w4 & H4 & H). apply write_file_read in H4 as [R4 F4].
  apply write_file_read in H as [R5 F5].
  assert (read_file w' (d, "params.json") = Some (save_dict C (b_params b))) as P1.
  { by rewrite F5, F4, F3, F2 by (intros [=]). }
  assert (read_file w' (d, "performance.json") = Some (save_dict C (b_performance b))) as P2.
  { by rewrite F5, F4, F3 by (intros [=]). }
  assert (read_file w' (d, "label_encoder.json")
          = Some (save_label_encoder C (b_label_encoder b))) as P3.
  { by rewrite F5, F4 by (intros [=]). }
  assert (read_file w' (d, "tokenizer.json") = Some (save_tokenizer C (b_tokenizer b))) as P4.
  { by rewrite F5 by (intros [=]). }
  unfold read_bundle, utils_load_dict. cbn [fst snd].
  rewrite P1, P2, P3, P4, R5.
  unfold mbind, result_bind, bind. rewrite !Hdict, Hlabels, Htokens, Htorch.
  eexists. split; [reflexivity|]. done.
Qed.
End bundle_codec.

Lemma bundle_round_trip_witness :
  ∃ b', read_bundle typed_files "config"
          (stage_bundle typed_files sample_bundle "config" sample_world).2 = Ok b' ∧
        b_params b' = b_params sample_bundle ∧
        b_label_encoder b' = b_label_encoder sample_bundle ∧
        b_tokenizer b' = b_tokenizer sample_bundle ∧
        state_dict (b_model b') = state_dict (b_model sample_bundle) ∧
        b_performance b' = b_performance sample_bundle.
Proof.
  apply (bundle_round_trip typed_files sample_bundle "config" sample_world).
  - exact typed_files_inverse.
  - vm_compute. reflexivity.
Defined.

(** ** [train_model]: all five files or none *)

Section atomic_publish.
Context {blob : Type} (C : codecs blob).
Context (train_train : dict → result (bundle * Qc)).
Implicit Types w : @world blob.

(** C3, as the code has it: the five component files are written into
    the temporary directory and reach the artifact location of the run,
    all five at once, only when each of the five writes has succeeded, and
    the temporary directory is gone by then; when a write fails, or
    [train_model] fails for another reason, the location, new with the
    run, holds no file at all.  A write that cannot be made makes
    [train_model] fail.  The run itself exists from the start, so that its
    location can be asked for in both cases. *)
Theorem train_model_atomic_publish ch params_fp experiment_name run_name w :
  let out := train_model C train_train ch params_fp experiment_name run_name w in
  let dest := local_path (new_artifact_uri ch) in
  let dp := new_tmp_dir ch in
  dirs w !! dest = None →
  (out.1 = Ok () →
     Forall (λ n, (dp, n) ∉ faulty w) component_files ∧
     dirs out.2 !! dp = None ∧
     ∃ params b loss,
       utils_load_dict C params_fp w = Ok params ∧
       train_train params = Ok (b, loss) ∧
       dirs out.2 !! dest = Some (staged_files C b)) ∧
  (∀ e, out.1 = Err e → ∀ n, read_file out.2 (dest, n) = None) ∧
  (Exists (λ n, (dp, n) ∈ faulty w) component_files → ∃ e, out.1 = Err e).
Proof.
  intros out dest dp Hnew. subst out dest dp.
  destruct (train_model C train_train ch params_fp experiment_name run_name w)
    as [res w'] eqn:H. cbn [fst snd].
  pose proof (train_model_outcome _ _ _ _ _ _ _ _ _ H) as [_ Hout].
  split_and!.
  - intros ->.
    destruct Hout as (p & b & l & m & Hp & Hb & _ & Hdp & Hne & Hall & Hd & _).
    split_and!; [done| |].
    + by rewrite Hd, lookup_insert_ne.
    + exists p, b, l. split_and!; [done..|].
      rewrite Hd, lookup_insert_eq, Hnew. cbn.
      by rewrite (right_id_L ∅ (∪)).
  - intros e -> n.
    rewrite (train_model_err_files _ _ _ _ _ _ _ _ _ H).
    unfold read_file; cbn [fst snd]. by rewrite Hnew.
  - intros Hex. destruct res as [[]|e]; [|eauto].
    destruct Hout as (p & b & l & m & _ & _ & _ & _ & _ & Hall & _).
    exfalso. apply Exists_exists in Hex as (n & Hn & Hf).
    rewrite Forall_forall in Hall. by apply (Hall n Hn).
Qed.
End atomic_publish.

Lemma train_model_atomic_publish_witness :
  (train_model typed_files sample_train sample_choices sample_params_fp
     "best" "model" broken_world).1 = Err (OSError ("/tmp/tmp0", "model.pt")) ∧
  ∀ n, read_file (train_model typed_files sample_train sample_choices
                    sample_params_fp "best" "model" broken_world).2
         ("/mlruns/0/run1/artifacts", n) = None.
Proof.
  split; [vm_compute; reflexivity|].
  destruct (train_model_atomic_publish typed_files sample_train sample_choices
              sample_params_fp "best" "model" broken_world) as (_ & Herr & _).
  { vm_compute. reflexivity. }
  apply (Herr (OSError ("/tmp/tmp0", "model.pt"))). vm_compute. reflexivity.
Defined.

(** C3 fails as it is stated: the write of the weights is interrupted
    and [train_model] fails, and the run is known to the store all the
    same, with its artifact location. *)
Lemma interrupted_run_resolvable_counterexample :
  (train_model typed_files sample_train sample_choices sample_params_fp
     "best" "model" broken_world).1 = Err (OSError ("/tmp/tmp0", "model.pt")) ∧
  match get_run "run1"
          (train_model typed_files sample_train sample_choices sample_params_fp
             "best" "model" broken_world).2 with
  | Ok r => artifact_uri r = "file:///mlruns/0/run1/artifacts"
  | Err _ => False
  end.
Proof. split; vm_compute; reflexivity. Qed.

(** ** [load_artifacts]: the kinds of failure *)

Section load_failures.
Context {blob : Type} (C : codecs blob).
Implicit Types w : @world blob.




End load_failures.


